(** * Kura Galaan backend: a shallow embedding of [src/index.js]

    The file embeds the three HTTP handlers of the Express application
    ([/create-payment-intent], [/process-order], [/analytics]) and the two
    document triggers ([updateSearchIndex], [sendOrderConfirmation]), and
    proves the properties the specification states about them.

    Conventions of the embedding.
    - A JavaScript number that carries money ([amount], [total], [price]) is
      an IEEE-754 binary64 value, written as a [spec_float] of the Standard
      Library with [prec = 53] and [emax = 1024]; arithmetic on it is the
      correctly rounded arithmetic of [SpecFloat].
    - Counts ([quantity], [stock]) are integers of [Z]. A [Timestamp] of the
      store is a count of microseconds since the Unix epoch, the precision
      of the store, in [Z]; where the source uses a timestamp as a number
      it gets the binary64 value of [Timestamp.prototype.valueOf]
      ([Firestore.Timestamp_valueOf]). Every order document carries the
      two timestamps that [/process-order] stamps.
    - Strings are strings of ASCII characters, one byte each; on them
      [toLowerCase] maps the letters [A] to [Z] and nothing else.
    - A field that may be absent from a request body or a document is a
      [field]: undefined, null or a value. A field that is present has the
      type the data model gives it: the embedding does not model a
      [userId] that is a number or an item that is not an object.
    - [Api.process_order_json] is the handler of [/process-order] on any
      such body. [Api.process_order] is the same handler on an
      [order_request], a body whose five fields are present and whose ids
      are document ids (not empty, no slash); theorem
      [process_order_json_well_formed] relates the two.
    - A document reference is made from a path: [doc(path)] throws for the
      empty path, for a path with two slashes in a row and for a path that
      does not name a document ([Firestore.doc]). The ids of the documents
      the store holds have no slash, and so have the uids of the identity
      service and the ids the triggers receive.
    - [collection.get()] gives the documents in the order of their ids.
    - The external services (payments provider, identity service, document
      store) are part of an explicit [World] that every handler threads;
      every call to one of them is appended to the [trace] of the world.
      The document store never fails for reasons of its own (network,
      quota); it fails where its interface says it does: [update] of a
      document that does not exist, and a write whose data holds
      [undefined].
    - The id that [add] gives a new document is some id that the collection
      does not hold; the statements use nothing else about it.
    - [Array.prototype.sort] is a stable sort; it is written as an insertion
      sort, which gives the order every stable sort gives for a comparator
      that is a total preorder. The comparator returns a number; an
      element goes before another unless the number is positive. *)

From Stdlib Require Import Ascii String ZArith Lia List Sorted Permutation.
From Stdlib Require Import Floats.SpecFloat.
From stdpp Require Import gmap strings list fin_maps.

Open Scope Z_scope.

(** ** JavaScript numbers *)

Module JsNumber.

Definition prec : Z := 53.
Definition emax : Z := 1024.

Definition number : Type := spec_float.

Definition js_mul : number -> number -> number := SFmul prec emax.
Definition js_add : number -> number -> number := SFadd prec emax.

(** The number whose value is the integer [n]; [szero] is the sign of the
    zero when [n = 0]. *)
Definition of_int (n : Z) (szero : bool) : number :=
  binary_normalize prec emax n 0 szero.

(** The literals [0] and [100] of the source. *)
Definition zero : number := S754_zero false.
Definition hundred : number := Eval vm_compute in of_int 100 false.

(** [floor ((M + 2^(k-1)) / 2^k)]: the integer nearest to [M / 2^k], the
    upper one of the two when [M / 2^k] lies half way. *)
Definition round_half_up (M k : Z) : Z := (M + 2 ^ (k - 1)) / 2 ^ k.

(** [Math.round]: NaN, the infinities and the zeros are returned as they
    are; a finite number with a non-negative exponent is integral already;
    otherwise the value is [±m / 2^(-e)] and the result is the nearest
    integer, ties towards +∞, with the sign of [x] when it is zero. *)
Definition Math_round (x : number) : number :=
  match x with
  | S754_finite s m e =>
      if 0 <=? e then x
      else of_int (round_half_up (cond_Zopp s (Zpos m)) (- e)) s
  | _ => x
  end.

(** The integer a number denotes, when it denotes one. *)
Definition to_int (x : number) : option Z :=
  match x with
  | S754_zero _ => Some 0
  | S754_finite s m e =>
      if 0 <=? e then Some (cond_Zopp s (Zpos m * 2 ^ e))
      else if Zpos m mod 2 ^ (- e) =? 0
           then Some (cond_Zopp s (Zpos m / 2 ^ (- e)))
           else None
  | _ => None
  end.

(** [Boolean(x)] on a number: false on [+0], [-0] and [NaN]. *)
Definition truthy (x : number) : bool :=
  match x with
  | S754_zero _ | S754_nan => false
  | _ => true
  end.

(** Finite numbers whose exponent is not below the least exponent of the
    format; every binary64 value is one. *)
Definition above_emin (x : number) : Prop :=
  match x with
  | S754_finite _ _ e => emin prec emax <= e
  | _ => True
  end.

(** A number that is not a zero and whose exponent, when it is finite, is
    not below the least exponent. *)
Definition nonzero_above_emin (x : number) : Prop :=
  match x with
  | S754_zero _ => False
  | S754_finite _ _ e => emin prec emax <= e
  | _ => True
  end.

Definition js_sub : number -> number -> number := SFsub prec emax.

(** [x > 0] *)
Definition is_positive (x : number) : bool :=
  match x with
  | S754_finite false _ _ | S754_infinity false => true
  | _ => false
  end.

End JsNumber.
Export JsNumber.

(** ** JavaScript strings *)

Module JsString.

Definition ascii_lower (c : ascii) : ascii :=
  let n := nat_of_ascii c in
  if ((65 <=? n) && (n <=? 90))%nat then ascii_of_nat (n + 32) else c.

(** [String.prototype.toLowerCase]. *)
Fixpoint toLowerCase (s : string) : string :=
  match s with
  | EmptyString => EmptyString
  | String c s' => String (ascii_lower c) (toLowerCase s')
  end.

(** [split_aux sep s cur] : the pieces of [s] between occurrences of the
    one-character separator [sep]; [cur] is the piece read so far. *)
Fixpoint split_aux (sep : ascii) (s : string) (cur : string) : list string :=
  match s with
  | EmptyString => [cur]
  | String c s' =>
      if Ascii.eqb c sep then cur :: split_aux sep s' EmptyString
      else split_aux sep s' (cur +:+ String c EmptyString)
  end.

(** [s.split(' ')]. *)
Definition split_space (s : string) : list string :=
  split_aux " "%char s EmptyString.

End JsString.
Export JsString.

(** ** Documents *)

(** A field that may be missing from a document or a request body. *)
Inductive field (A : Type) : Type :=
| Undefined
| Null
| Val (a : A).
Arguments Undefined {A}.
Arguments Null {A}.
Arguments Val {A} a.

Definition is_undefined {A} (f : field A) : bool :=
  match f with Undefined => true | _ => false end.

Record item := {
  productId : string;
  quantity : Z
}.

Record order := {
  o_userId : field string;
  o_items : field (list item);
  o_total : field number;
  o_shippingAddress : field string;
  o_paymentIntentId : string;
  o_status : string;
  o_createdAt : Z;
  o_updatedAt : Z
}.

Record product := {
  p_name : field string;
  p_category : field string;
  p_description : field string;
  p_tags : field (list string);
  p_price : field number;
  p_images : field (list string);
  p_stock : Z
}.

Record user := {
  u_email : field string;
  u_role : field string
}.

Record index_entry := {
  ie_productId : string;
  ie_name : field string;
  ie_category : field string;
  ie_price : field number;
  ie_image : field string;
  ie_searchTerms : list string;
  ie_updatedAt : Z
}.

(** ** The world of the external services *)

Inductive collection := Orders | Products | Carts | Users | SearchIndex.

Record intent_params := {
  ip_amount : number;
  ip_currency : field string;
  ip_orderId : field string
}.

Inductive event :=
| StripeCreate (p : intent_params)
| StripeRetrieve (id : string)
| AuthVerify (token : option string)
| DocGet (c : collection) (id : string)
| CollectionGet (c : collection)
| DocAdd (c : collection) (id : string)
| BatchCommit (updates : list (string * Z))
| DocSet (c : collection) (id : string)
| DocDelete (c : collection) (id : string).

Definition is_collection_get (e : event) : bool :=
  match e with CollectionGet _ => true | _ => false end.

Definition is_write (e : event) : bool :=
  match e with
  | DocAdd _ _ | BatchCommit _ | DocSet _ _ | DocDelete _ _ => true
  | _ => false
  end.

Record World := {
  (** the provider's answer to [paymentIntents.create]: an error text or the
      client secret of the new intent *)
  provider_create : intent_params -> string + string;
  (** the status of the payment intents the provider knows *)
  intents : gmap string string;
  (** the ID tokens the identity service accepts, with the uid they carry *)
  id_tokens : gmap string string;
  orders : gmap string order;
  products : gmap string product;
  carts : gmap string (list item);
  users : gmap string user;
  search_index : gmap string index_entry;
  (** the time of the store, read by [FieldValue.serverTimestamp()]:
      microseconds since the Unix epoch *)
  now : Z;
  trace : list event
}.

Definition add_event (e : event) (w : World) : World :=
  {| provider_create := provider_create w; intents := intents w;
     id_tokens := id_tokens w; orders := orders w; products := products w;
     carts := carts w; users := users w; search_index := search_index w;
     now := now w; trace := trace w ++ [e] |}.

Definition set_orders (m : gmap string order) (w : World) : World :=
  {| provider_create := provider_create w; intents := intents w;
     id_tokens := id_tokens w; orders := m; products := products w;
     carts := carts w; users := users w; search_index := search_index w;
     now := now w; trace := trace w |}.

Definition set_products (m : gmap string product) (w : World) : World :=
  {| provider_create := provider_create w; intents := intents w;
     id_tokens := id_tokens w; orders := orders w; products := m;
     carts := carts w; users := users w; search_index := search_index w;
     now := now w; trace := trace w |}.

Definition set_carts (m : gmap string (list item)) (w : World) : World :=
  {| provider_create := provider_create w; intents := intents w;
     id_tokens := id_tokens w; orders := orders w; products := products w;
     carts := m; users := users w; search_index := search_index w;
     now := now w; trace := trace w |}.

Definition set_search_index (m : gmap string index_entry) (w : World) : World :=
  {| provider_create := provider_create w; intents := intents w;
     id_tokens := id_tokens w; orders := orders w; products := products w;
     carts := carts w; users := users w; search_index := m;
     now := now w; trace := trace w |}.

(** ** The monad of the handlers: a world is threaded, a call may throw *)

Definition M (A : Type) : Type := World -> (string + A) * World.

#[export] Instance M_ret : MRet M := fun A a w => (inr a, w).

#[export] Instance M_bind : MBind M := fun A B f m w =>
  match m w with
  | (inl msg, w') => (inl msg, w')
  | (inr a, w') => f a w'
  end.

Definition throw {A} (msg : string) : M A := fun w => (inl msg, w).

Definition emit (e : event) : M unit := fun w => (inr tt, add_event e w).

Definition ask {A} (f : World -> A) : M A := fun w => (inr (f w), w).

Definition update (f : World -> World) : M unit := fun w => (inr tt, f w).

(** ** The payments provider *)

Module Stripe.

(** [stripe.paymentIntents.create(params)] *)
Definition paymentIntents_create (p : intent_params) : M string :=
  emit (StripeCreate p);;
  answer ← ask (fun w => provider_create w p);
  match answer with
  | inl msg => throw msg
  | inr client_secret => mret client_secret
  end.

(** [stripe.paymentIntents.retrieve(id)]: the status of the intent. *)
Definition paymentIntents_retrieve (id : string) : M string :=
  emit (StripeRetrieve id);;
  found ← ask (fun w => intents w !! id);
  match found with
  | None => throw ("No such payment_intent: " +:+ id)
  | Some st => mret st
  end.

End Stripe.

(** ** The identity service *)

Module Auth.

(** [admin.auth().verifyIdToken(token)]: the uid of the decoded token. *)
Definition verifyIdToken (token : option string) : M string :=
  emit (AuthVerify token);;
  match token with
  | None => throw "verifyIdToken() expects an ID token"
  | Some t =>
      found ← ask (fun w => id_tokens w !! t);
      match found with
      | None => throw "Decoding Firebase ID token failed"
      | Some uid => mret uid
      end
  end.

End Auth.

(** ** The document store *)

Module Firestore.

(** The number a [Timestamp] becomes in arithmetic. [valueOf] gives the
    string [<seconds since year 1>.<nanoseconds>], and the subtraction
    reads that string as a number: the binary64 number nearest to
    [(t + 62135596800000000) / 10^6] for a timestamp of [t]
    microseconds. *)
Definition Timestamp_valueOf (t : Z) : number :=
  match t + 62135596800000000 with
  | Zpos n =>
      SFdiv prec emax (S754_finite false n 0) (S754_finite false 1000000 0)
  | _ => zero
  end.

Fixpoint has_double_slash (path : string) : bool :=
  match path with
  | String c1 rest =>
      match rest with
      | String c2 _ =>
          (Ascii.eqb c1 "/"%char && Ascii.eqb c2 "/"%char)
          || has_double_slash rest
      | EmptyString => false
      end
  | EmptyString => false
  end.

(** The pieces of a path between its slashes that are not empty. *)
Definition segments (path : string) : list string :=
  List.filter (fun s => negb (String.eqb s ""))
              (split_aux "/"%char path "").

Fixpoint join_slash (parts : list string) : string :=
  match parts with
  | [] => ""
  | [p] => p
  | p :: rest => p +:+ "/" +:+ join_slash rest
  end.

(** [db.collection(c).doc(path)]: the key of the document the reference
    points to. The client throws when the path is empty, when it holds two
    slashes in a row, and when the path does not end in a document (an even
    number of segments after the collection). *)
Definition doc (path : string) : option string :=
  if String.eqb path "" then None
  else if has_double_slash path then None
  else
    let segs := segments path in
    if Nat.even (length segs) then None else Some (join_slash segs).

(** [doc(f)] for a field of a body or a document: what is not a string is
    not a path. *)
Definition doc_of (f : field string) : option string :=
  match f with
  | Val path => doc path
  | _ => None
  end.

(** [db.collection('orders').add(data)]: the client refuses data that
    holds [undefined] before it writes anything; otherwise the store
    chooses an id that no document of the collection has, and stamps the
    two timestamps. *)
Definition orders_add (data : Z -> order) : M string :=
  t ← ask now;
  let d := data t in
  if is_undefined (o_userId d) || is_undefined (o_items d)
     || is_undefined (o_total d) || is_undefined (o_shippingAddress d)
  then throw "Cannot use undefined as a Firestore value"
  else
    id ← ask (fun w => fresh (dom (orders w)));
    update (fun w => set_orders (<[id := d]> (orders w)) w);;
    emit (DocAdd Orders id);;
    mret id.

Definition increment (delta : Z) (p : product) : product :=
  {| p_name := p_name p; p_category := p_category p;
     p_description := p_description p; p_tags := p_tags p;
     p_price := p_price p; p_images := p_images p;
     p_stock := p_stock p + delta |}.

(** The writes of a batch, applied in order: an [update] needs its
    document to exist. *)
Fixpoint apply_updates (ups : list (string * Z)) (ps : gmap string product)
  : option (gmap string product) :=
  match ups with
  | [] => Some ps
  | (id, delta) :: rest =>
      match ps !! id with
      | None => None
      | Some p => apply_updates rest (<[id := increment delta p]> ps)
      end
  end.

(** [batch.commit()]: all the writes, or none of them and an error. *)
Definition batch_commit (ups : list (string * Z)) : M unit :=
  emit (BatchCommit ups);;
  ps ← ask products;
  match apply_updates ups ps with
  | None => throw "5 NOT_FOUND: No document to update"
  | Some ps' => update (set_products ps')
  end.

(** [delete()] on the reference to the cart [id]: succeeds whether the
    document exists or not. *)
Definition carts_delete (id : string) : M unit :=
  emit (DocDelete Carts id);;
  update (fun w => set_carts (delete id (carts w)) w).

(** [get()] on the reference to the user [id]: [None] when [exists] is
    false. *)
Definition users_doc_get (id : string) : M (option user) :=
  emit (DocGet Users id);;
  ask (fun w => users w !! id).

Fixpoint insert_by_id {A} (d : string * A) (l : list (string * A))
  : list (string * A) :=
  match l with
  | [] => [d]
  | e :: l' =>
      if String.leb (fst d) (fst e) then d :: e :: l'
      else e :: insert_by_id d l'
  end.

(** The documents of a collection as a query without [orderBy] gives
    them: by ascending id. *)
Definition documents {A} (m : gmap string A) : list (string * A) :=
  fold_right insert_by_id [] (map_to_list m).

(** [db.collection(c).get()]: the documents of the whole collection. *)
Definition orders_get : M (list (string * order)) :=
  emit (CollectionGet Orders);; ask (fun w => documents (orders w)).

Definition products_get : M (list (string * product)) :=
  emit (CollectionGet Products);; ask (fun w => documents (products w)).

Definition users_get : M (list (string * user)) :=
  emit (CollectionGet Users);; ask (fun w => documents (users w)).

Definition search_index_delete (id : string) : M unit :=
  emit (DocDelete SearchIndex id);;
  update (fun w => set_search_index (delete id (search_index w)) w).

(** [db.collection('search_index').doc(id).set(data)]: the store refuses
    data that holds [undefined] ([ignoreUndefinedProperties] is off unless
    the settings turn it on, and the source never does). *)
Definition search_index_set (id : string) (data : Z -> index_entry) : M unit :=
  emit (DocSet SearchIndex id);;
  t ← ask now;
  let d := data t in
  if is_undefined (ie_name d) || is_undefined (ie_category d)
     || is_undefined (ie_price d) || is_undefined (ie_image d)
  then throw "Cannot use undefined as a Firestore value"
  else update (fun w => set_search_index (<[id := d]> (search_index w)) w).

End Firestore.

(** ** The HTTP handlers *)

Record recent_order := {
  ro_id : string;
  ro_data : order
}.

Record analytics_data := {
  totalOrders : nat;
  totalProducts : nat;
  totalUsers : nat;
  totalRevenue : number;
  recentOrders : list recent_order
}.

Inductive body :=
| ErrorBody (error : string)
| ClientSecretBody (clientSecret : string)
| OrderBody (orderId : string) (status : string)
| AnalyticsBody (a : analytics_data).

Record response := {
  r_status : Z;
  r_body : body
}.

(** [res.json(b)] and [res.status(c).json(b)] *)
Definition json (b : body) : response := {| r_status := 200; r_body := b |}.
Definition status_json (c : Z) (b : body) : response :=
  {| r_status := c; r_body := b |}.

(** [try { ... } catch (error) { res.status(500).json({ error: error.message }) }] *)
Definition try_catch_500 (handler : M response) : World -> response * World :=
  fun w =>
    match handler w with
    | (inr r, w') => (r, w')
    | (inl message, w') => (status_json 500 (ErrorBody message), w')
    end.

Record payment_request := {
  pr_amount : number;
  pr_currency : field string;
  pr_orderId : field string
}.

(** The body of [/process-order] as JSON gives it: any of the five fields
    may be absent or null. *)
Record order_body := {
  ob_userId : field string;
  ob_items : field (list item);
  ob_total : field number;
  ob_shippingAddress : field string;
  ob_paymentIntentId : field string
}.

(** A body of [/process-order] whose five fields are present; [or_userId]
    and the [productId] of the items are document ids. *)
Record order_request := {
  or_userId : string;
  or_items : list item;
  or_total : number;
  or_shippingAddress : string;
  or_paymentIntentId : string
}.

Record analytics_request := {
  authorization : option string
}.

Module Api.

(** A destructuring default: it replaces [undefined] only. *)
Definition default {A} (d : A) (f : field A) : field A :=
  match f with Undefined => Val d | _ => f end.

(** [Math.round(amount * 100)] *)
Definition to_cents (amount : number) : number :=
  Math_round (js_mul amount hundred).

(** The argument of [stripe.paymentIntents.create]. *)
Definition intent_of (req : payment_request) : intent_params :=
  let amount := pr_amount req in
  let currency := default "usd" (pr_currency req) in
  let orderId := pr_orderId req in
  {| ip_amount := to_cents amount;
     ip_currency := currency;
     ip_orderId := orderId |}.

Definition create_payment_intent_body (req : payment_request) : M response :=
  client_secret ← Stripe.paymentIntents_create (intent_of req);
  mret (json (ClientSecretBody client_secret)).

(** [app.post('/create-payment-intent', ...)] *)
Definition create_payment_intent (req : payment_request)
  : World -> response * World :=
  try_catch_500 (create_payment_intent_body req).

(** The writes that the loop over [items] puts in the batch. *)
Definition stock_updates (items : list item) : list (string * Z) :=
  map (fun it => (productId it, - quantity it)) items.

Definition new_order (req : order_request) (t : Z) : order :=
  {| o_userId := Val (or_userId req);
     o_items := Val (or_items req);
     o_total := Val (or_total req);
     o_shippingAddress := Val (or_shippingAddress req);
     o_paymentIntentId := or_paymentIntentId req;
     o_status := "confirmed";
     o_createdAt := t;
     o_updatedAt := t |}.

Definition process_order_body (req : order_request) : M response :=
  st ← Stripe.paymentIntents_retrieve (or_paymentIntentId req);
  if negb (String.eqb st "succeeded")
  then mret (status_json 400 (ErrorBody "Payment not completed"))
  else
    orderId ← Firestore.orders_add (new_order req);
    Firestore.batch_commit (stock_updates (or_items req));;
    Firestore.carts_delete (or_userId req);;
    mret (json (OrderBody orderId "success")).

(** [app.post('/process-order', ...)] on a request whose fields are
    present and whose ids are document ids. *)
Definition process_order (req : order_request) : World -> response * World :=
  try_catch_500 (process_order_body req).

(** The object handed to [add]. *)
Definition order_data (b : order_body) (paymentIntentId : string) (t : Z)
  : order :=
  {| o_userId := ob_userId b;
     o_items := ob_items b;
     o_total := ob_total b;
     o_shippingAddress := ob_shippingAddress b;
     o_paymentIntentId := paymentIntentId;
     o_status := "confirmed";
     o_createdAt := t;
     o_updatedAt := t |}.

(** The loop over [items]: a reference is made for every item, and
    [doc] throws on a path that names no document. *)
Fixpoint batch_of (items : list item) : option (list (string * Z)) :=
  match items with
  | [] => Some []
  | it :: rest =>
      match Firestore.doc (productId it) with
      | None => None
      | Some id =>
          match batch_of rest with
          | None => None
          | Some ups => Some ((id, - quantity it) :: ups)
          end
      end
  end.

Definition process_order_json_body (b : order_body) : M response :=
  paymentIntentId ←
    match ob_paymentIntentId b with
    | Val id => mret id
    | _ => throw "Stripe: Argument intent must be a string"
    end;
  st ← Stripe.paymentIntents_retrieve paymentIntentId;
  if negb (String.eqb st "succeeded")
  then mret (status_json 400 (ErrorBody "Payment not completed"))
  else
    orderId ← Firestore.orders_add (order_data b paymentIntentId);
    items ←
      match ob_items b with
      | Val items => mret items
      | _ => throw "items is not iterable"
      end;
    updates ←
      match batch_of items with
      | Some ups => mret ups
      | None => throw "Value for argument documentPath is not a valid resource path"
      end;
    Firestore.batch_commit updates;;
    cart ←
      match Firestore.doc_of (ob_userId b) with
      | Some id => mret id
      | None => throw "Value for argument documentPath is not a valid resource path"
      end;
    Firestore.carts_delete cart;;
    mret (json (OrderBody orderId "success")).

(** [app.post('/process-order', ...)] *)
Definition process_order_json (b : order_body) : World -> response * World :=
  try_catch_500 (process_order_json_body b).

(** [req.headers.authorization?.split(' ')[1]] *)
Definition bearer_token (req : analytics_request) : option string :=
  match authorization req with
  | None => None
  | Some h => nth_error (split_space h) 1
  end.

(** [!userDoc.exists || userDoc.data().role !== 'admin'] *)
Definition not_admin (userDoc : option user) : bool :=
  match userDoc with
  | None => true
  | Some u =>
      match u_role u with
      | Val r => negb (String.eqb r "admin")
      | _ => true
      end
  end.

(** [doc.data().total || 0] *)
Definition total_or_0 (o : order) : number :=
  match o_total o with
  | Val t => if truthy t then t else zero
  | _ => zero
  end.

(** [docs.reduce((sum, doc) => sum + (doc.data().total || 0), 0)] *)
Definition revenue (docs : list (string * order)) : number :=
  fold_left (fun sum doc => js_add sum (total_or_0 (snd doc))) docs zero.

(** [Array.prototype.sort(compare)], a stable sort: [x] is put before the
    first element that [compare] does not put before it, that is, the
    first [y] for which [compare x y] is not positive. *)
Fixpoint sort_insert {A} (compare : A -> A -> number) (x : A) (l : list A)
  : list A :=
  match l with
  | [] => [x]
  | y :: l' =>
      if is_positive (compare x y) then y :: sort_insert compare x l'
      else x :: y :: l'
  end.

Definition sort {A} (compare : A -> A -> number) (l : list A) : list A :=
  fold_right (sort_insert compare) [] l.

(** [(a, b) => b.data().createdAt - a.data().createdAt]: the subtraction
    of two [Timestamp] objects, each turned into a number first. *)
Definition newest_first (a b : string * order) : number :=
  js_sub (Firestore.Timestamp_valueOf (o_createdAt (snd b)))
         (Firestore.Timestamp_valueOf (o_createdAt (snd a))).

(** [docs.sort(...).slice(0, 10).map(doc => ({ id: doc.id, ...doc.data() }))] *)
Definition recent (docs : list (string * order)) : list recent_order :=
  map (fun doc => {| ro_id := fst doc; ro_data := snd doc |})
      (firstn 10 (sort newest_first docs)).

(** [const analytics = { ... }] *)
Definition analytics_object (ordersSnapshot : list (string * order))
    (productsSnapshot : list (string * product))
    (usersSnapshot : list (string * user)) : analytics_data :=
  {| totalOrders := length ordersSnapshot;
     totalProducts := length productsSnapshot;
     totalUsers := length usersSnapshot;
     totalRevenue := revenue ordersSnapshot;
     recentOrders := recent ordersSnapshot |}.

Definition analytics_body (req : analytics_request) : M response :=
  let token := bearer_token req in
  uid ← Auth.verifyIdToken token;
  userDoc ← Firestore.users_doc_get uid;
  if not_admin userDoc
  then mret (status_json 403 (ErrorBody "Unauthorized"))
  else
    ordersSnapshot ← Firestore.orders_get;
    productsSnapshot ← Firestore.products_get;
    usersSnapshot ← Firestore.users_get;
    mret (json (AnalyticsBody
      (analytics_object ordersSnapshot productsSnapshot usersSnapshot))).

(** [app.get('/analytics', ...)] *)
Definition analytics (req : analytics_request) : World -> response * World :=
  try_catch_500 (analytics_body req).

End Api.

(** ** The trigger on product documents *)

Module Trigger.

(** [f?.toLowerCase()] *)
Definition lower_opt (f : field string) : option string :=
  match f with
  | Val s => Some (toLowerCase s)
  | _ => None
  end.

(** [f || []] *)
Definition or_empty {A} (f : field (list A)) : list A :=
  match f with
  | Val l => l
  | _ => []
  end.

(** [.filter(Boolean)] on an array of strings and [undefined]. *)
Fixpoint filter_Boolean (l : list (option string)) : list string :=
  match l with
  | [] => []
  | Some (String c s) :: l' => String c s :: filter_Boolean l'
  | _ :: l' => filter_Boolean l'
  end.

Definition search_terms (p : product) : list string :=
  filter_Boolean
    ([lower_opt (p_name p); lower_opt (p_category p);
      lower_opt (p_description p)]
     ++ map (fun tag => Some (toLowerCase tag)) (or_empty (p_tags p))).

(** [product.images?.[0]] *)
Definition first_image (f : field (list string)) : field string :=
  match f with
  | Val (i :: _) => Val i
  | _ => Undefined
  end.

Definition index_data (productId : string) (p : product) (t : Z) : index_entry :=
  {| ie_productId := productId;
     ie_name := p_name p;
     ie_category := p_category p;
     ie_price := p_price p;
     ie_image := first_image (p_images p);
     ie_searchTerms := search_terms p;
     ie_updatedAt := t |}.

(** [exports.updateSearchIndex]: [after] is [change.after], [None] when
    [change.after.exists] is false. The result is the promise the trigger
    returns: [inl] when it rejects. *)
Definition updateSearchIndex (productId : string) (after : option product)
  : M unit :=
  match after with
  | None => Firestore.search_index_delete productId
  | Some p => Firestore.search_index_set productId (index_data productId p)
  end.

End Trigger.

(** ** Vocabulary of the statements *)

(** The sum of the deltas that a list of updates holds for one document. *)
Fixpoint delta_sum (id : string) (ups : list (string * Z)) : Z :=
  match ups with
  | [] => 0
  | (id', d) :: rest => (if decide (id' = id) then d else 0) + delta_sum id rest
  end.

(** The quantity that a list of items orders of one product. *)
Fixpoint ordered (id : string) (items : list item) : Z :=
  match items with
  | [] => 0
  | it :: rest =>
      (if decide (productId it = id) then quantity it else 0) + ordered id rest
  end.




(** [n] is the integer nearest to the number [x], the upper one of the two
    when [x] lies half way: [x - 1/2 < n <= x + 1/2], written without
    fractions for [x = M / 2^k]. *)
Definition is_rounding (x : number) (n : Z) : Prop :=
  match x with
  | S754_zero _ => n = 0
  | S754_finite s m e =>
      let M := cond_Zopp s (Zpos m) in
      if 0 <=? e then n = M * 2 ^ e
      else 2 * M - 2 ^ (- e) < 2 * n * 2 ^ (- e) <= 2 * M + 2 ^ (- e)
  | _ => False
  end.

(** The [total] of an order is absent, null, or a number that is falsy:
    a zero or NaN. *)
Definition falsy_total (o : order) : Prop :=
  match o_total o with
  | Val t => truthy t = false
  | _ => True
  end.

(** The totals of the documents that are truthy, in the order of the
    documents. *)
Fixpoint truthy_totals (docs : list (string * order)) : list number :=
  match docs with
  | [] => []
  | doc :: rest =>
      match o_total (snd doc) with
      | Val t => if truthy t then t :: truthy_totals rest else truthy_totals rest
      | _ => truthy_totals rest
      end
  end.

(** [docs] holds the documents of the collection [m], each once, by
    ascending id. *)
Definition by_ascending_id {A} (m : gmap string A) (docs : list (string * A))
  : Prop :=
  Permutation (map_to_list m) docs /\
  Sorted (fun d e => String.leb (fst d) (fst e) = true) docs.

(** The sum of a list of numbers, from the left, starting from [0]. *)
Definition sum_numbers (l : list number) : number := fold_left js_add l zero.

(** Every total that is a number is a binary64 number. *)
Definition totals_binary64 (os : gmap string order) : Prop :=
  forall id o t, os !! id = Some o -> o_total o = Val t ->
                 valid_binary prec emax t = true.

(** The world after [/analytics] has refused a caller. *)
Definition analytics_refused (tok uid : string) (w : World) : World :=
  add_event (DocGet Users uid) (add_event (AuthVerify (Some tok)) w).

(** The world after [/analytics] has served an administrator. *)
Definition analytics_served (tok uid : string) (w : World) : World :=
  add_event (CollectionGet Users)
    (add_event (CollectionGet Products)
      (add_event (CollectionGet Orders) (analytics_refused tok uid w))).

(** ** Concrete worlds and requests *)

Module Examples.

Definition shirt : product :=
  {| p_name := Val "Shirt"; p_category := Val "Wear";
     p_description := Val "Cotton shirt"; p_tags := Val ["a"; "B"];
     p_price := Val hundred; p_images := Val ["shirt.png"];
     p_stock := 10 |}.

Definition cap : product :=
  {| p_name := Val "Cap"; p_category := Val "Wear";
     p_description := Undefined; p_tags := Undefined;
     p_price := Val hundred; p_images := Val ["cap.png"];
     p_stock := 7 |}.

Definition shop : World :=
  {| provider_create := fun _ => inr "pi_1_secret";
     intents := {[ "pi_1" := "succeeded"; "pi_2" := "processing" ]};
     id_tokens := {[ "tok_admin" := "u1"; "tok_user" := "u2";
                     "tok_ghost" := "u3" ]};
     orders := ∅;
     products := {[ "p1" := shirt; "p2" := cap ]};
     carts := {[ "u2" := [ {| productId := "p1"; quantity := 2 |} ] ]};
     users := {[ "u1" := {| u_email := Val "a@shop"; u_role := Val "admin" |};
                 "u2" := {| u_email := Val "b@shop"; u_role := Val "customer" |} ]};
     search_index := ∅;
     now := 1000;
     trace := [] |}.

(** Two line items on two products of the shop, paid. *)
Definition paid_request : order_request :=
  {| or_userId := "u2";
     or_items := [ {| productId := "p1"; quantity := 2 |};
                   {| productId := "p2"; quantity := 3 |} ];
     or_total := hundred;
     or_shippingAddress := "1 Main Street";
     or_paymentIntentId := "pi_1" |}.

(** The same order against an intent that has not succeeded. *)
Definition unpaid_request : order_request :=
  {| or_userId := "u2";
     or_items := or_items paid_request;
     or_total := hundred;
     or_shippingAddress := "1 Main Street";
     or_paymentIntentId := "pi_2" |}.

(** A paid order whose second item names a product the store does not
    hold. *)
Definition ghost_request : order_request :=
  {| or_userId := "u2";
     or_items := [ {| productId := "p1"; quantity := 2 |};
                   {| productId := "p9"; quantity := 1 |} ];
     or_total := hundred;
     or_shippingAddress := "1 Main Street";
     or_paymentIntentId := "pi_1" |}.

(** The binary64 number nearest to 19.995, the value of the JSON literal
    [19.995]: [5628092159329567 / 2^48]. *)
Definition amount_19_995 : number := S754_finite false 5628092159329567 (-48).

(** The value of the literal [1.005]: [4526117625507348 / 2^52], a little
    below 1.005. *)
Definition amount_1_005 : number := S754_finite false 4526117625507348 (-52).

Definition amount_minus_5 : number := Eval vm_compute in of_int (-5) false.

Definition payment_of (amount : number) : payment_request :=
  {| pr_amount := amount; pr_currency := Undefined; pr_orderId := Val "order-1" |}.

Definition payment_19_995 : payment_request :=
  {| pr_amount := amount_19_995; pr_currency := Undefined;
     pr_orderId := Val "order-1" |}.

(** The provider refuses every intent. *)
Definition closed_provider : World :=
  {| provider_create := fun _ => inl "Invalid integer";
     intents := ∅; id_tokens := ∅; orders := ∅; products := ∅; carts := ∅;
     users := ∅; search_index := ∅; now := 0; trace := [] |}.

(** The shirt before it had tags. *)
Definition plain_shirt : product :=
  {| p_name := Val "Shirt"; p_category := Val "Wear";
     p_description := Val "Cotton shirt"; p_tags := Val [];
     p_price := Val hundred; p_images := Val ["shirt.png"];
     p_stock := 10 |}.

(** A product that has no image yet: its [images] is the empty array. *)
Definition scarf : product :=
  {| p_name := Val "Scarf"; p_category := Val "Wear";
     p_description := Val ""; p_tags := Val ["a"; "B"];
     p_price := Val hundred; p_images := Val [];
     p_stock := 3 |}.

(** A product without a [name] field. *)
Definition nameless : product :=
  {| p_name := Undefined; p_category := Val "Wear";
     p_description := Undefined; p_tags := Val ["a"; "B"];
     p_price := Val hundred; p_images := Val ["x.png"];
     p_stock := 3 |}.

(** The shop with an index entry for each of its two products. *)
Definition indexed_shop : World :=
  set_search_index
    {[ "p1" := Trigger.index_data "p1" plain_shirt 900;
       "p2" := Trigger.index_data "p2" cap 900 ]} shop.

Definition admin_request : analytics_request :=
  {| authorization := Some "Bearer tok_admin" |}.

(** The token of a user whose role is "customer". *)
Definition customer_request : analytics_request :=
  {| authorization := Some "Bearer tok_user" |}.

(** A token that verifies, of a user who has no document. *)
Definition ghost_user_request : analytics_request :=
  {| authorization := Some "Bearer tok_ghost" |}.

Definition an_order (t : Z) (total : field number) : order :=
  {| o_userId := Val "u2"; o_items := Val []; o_total := total;
     o_shippingAddress := Val "1 Main Street"; o_paymentIntentId := "pi_1";
     o_status := "confirmed"; o_createdAt := t; o_updatedAt := t |}.

Definition with_orders (os : gmap string order) : World :=
  set_orders os shop.

(** Four orders: one total is missing, one is null, one is zero. *)
Definition busy_shop : World :=
  with_orders
    {[ "o1" := an_order 30 (Val hundred);
       "o2" := an_order 10 Undefined;
       "o3" := an_order 40 Null;
       "o4" := an_order 20 (Val zero) ]}.

End Examples.


(** ** The trigger on order documents *)

Module OrderTrigger.

(** A field inside a template literal. *)
Definition template (f : field string) : string :=
  match f with
  | Undefined => "undefined"
  | Null => "null"
  | Val s => s
  end.

Definition confirmation_line (email : field string) (orderId : string) : string :=
  "Order confirmation email should be sent to " +:+ template email
    +:+ " for order " +:+ orderId.

(** [exports.sendOrderConfirmation]: [o] is [snap.data()] and [orderId] is
    [context.params.orderId]. The trigger returns [null]; the value here is
    the lines it has written with [console.log]. [doc] throws when the
    [userId] of the order is no path to a document, and reading [email] of
    the data of a user document that does not exist throws. *)
Definition sendOrderConfirmation (orderId : string) (o : order) : M (list string) :=
  userRef ←
    match Firestore.doc_of (o_userId o) with
    | Some id => mret id
    | None => throw "Value for argument documentPath is not a valid resource path"
    end;
  userDoc ← Firestore.users_doc_get userRef;
  match userDoc with
  | None => throw "Cannot read properties of undefined (reading 'email')"
  | Some user => mret [confirmation_line (u_email user) orderId]
  end.

End OrderTrigger.

(** ** Vocabulary of the further statements *)

(** [parts.join(' ')] *)
Fixpoint join_space (parts : list string) : string :=
  match parts with
  | [] => ""
  | [p] => p
  | p :: rest => p +:+ " " +:+ join_space rest
  end.

(** The string holds no space. *)
Fixpoint spaceless (s : string) : bool :=
  match s with
  | EmptyString => true
  | String c s' => negb (Ascii.eqb c " "%char) && spaceless s'
  end.

(** The number of spaces of a string. *)
Fixpoint spaces (s : string) : nat :=
  match s with
  | EmptyString => 0%nat
  | String c s' => ((if Ascii.eqb c " "%char then 1 else 0) + spaces s')%nat
  end.

(** An ASCII capital letter, [A] to [Z]. *)
Definition is_capital (c : ascii) : bool :=
  ((65 <=? nat_of_ascii c) && (nat_of_ascii c <=? 90))%nat.

(** The characters of a string. *)
Fixpoint chars (s : string) : list ascii :=
  match s with
  | EmptyString => []
  | String c s' => c :: chars s'
  end.

(** Two worlds hold the same documents. *)
Definition same_documents (w w' : World) : Prop :=
  orders w' = orders w /\ products w' = products w /\ carts w' = carts w /\
  users w' = users w /\ search_index w' = search_index w.

(** The calls that a run has added to the trace. *)
Definition calls_between (w w' : World) (calls : list event) : Prop :=
  trace w' = trace w ++ calls.

(** Every product that an item names exists. *)
Definition items_in_stock_list (items : list item) (ps : gmap string product) : Prop :=
  Forall (fun it => is_Some (ps !! productId it)) items.

(** A product as the index sees it: everything but the stock. *)
Definition without_stock (p : product) : product :=
  {| p_name := p_name p; p_category := p_category p;
     p_description := p_description p; p_tags := p_tags p;
     p_price := p_price p; p_images := p_images p; p_stock := 0 |}.

(** The string holds no slash. *)
Fixpoint no_slash (s : string) : bool :=
  match s with
  | EmptyString => true
  | String c s' => negb (Ascii.eqb c "/"%char) && no_slash s'
  end.

(** A document id: a string that is not empty and holds no slash. *)
Definition plain_id (s : string) : bool :=
  negb (String.eqb s "") && no_slash s.

(** The JSON body of a request whose five fields are present. *)
Definition json_body (req : order_request) : order_body :=
  {| ob_userId := Val (or_userId req);
     ob_items := Val (or_items req);
     ob_total := Val (or_total req);
     ob_shippingAddress := Val (or_shippingAddress req);
     ob_paymentIntentId := Val (or_paymentIntentId req) |}.

(** [t] is [s] in lower case: the two have the same length, a capital
    letter of [s] has become the letter 32 codes further, the small one,
    and every other character is the same. *)
Fixpoint lowered (s t : string) : Prop :=
  match s, t with
  | EmptyString, EmptyString => True
  | String c s', String d t' =>
      (if is_capital c then nat_of_ascii d = (nat_of_ascii c + 32)%nat
       else d = c)
      /\ lowered s' t'
  | _, _ => False
  end.

(** Every character of the string is an ASCII character. *)
Definition ascii_only (s : string) : Prop :=
  Forall (fun c => (nat_of_ascii c < 128)%nat) (chars s).

(** A text field of a product that is present and not empty. *)
Definition present_text (f : field string) : list string :=
  match f with
  | Val s => if String.eqb s "" then [] else [s]
  | _ => []
  end.

(** The texts of a product that the index is built from: its name,
    category and description, then its tags, the empty ones left out. *)
Definition indexed_texts (p : product) : list string :=
  present_text (p_name p) ++ present_text (p_category p)
  ++ present_text (p_description p)
  ++ match p_tags p with
     | Val tags => List.filter (fun tag => negb (String.eqb tag "")) tags
     | _ => []
     end.

(** [n] is the integer nearest to a hundred times the amount, the upper
    one of the two when that lies half way; the amount is [M * 2^e], and
    the product is taken exactly, not in binary64. *)
Definition hundredfold_rounding (amount : number) (n : Z) : Prop :=
  match amount with
  | S754_zero _ => n = 0
  | S754_finite s m e =>
      let M := 100 * cond_Zopp s (Zpos m) in
      if 0 <=? e then n = M * 2 ^ e
      else 2 * M - 2 ^ (- e) < 2 * n * 2 ^ (- e) <= 2 * M + 2 ^ (- e)
  | _ => False
  end.

(** The world after [/process-order] has retrieved the intent of a body
    and added its order under [orderId]. *)
Definition order_added (b : order_body) (paymentIntentId orderId : string)
    (w : World) : World :=
  add_event (DocAdd Orders orderId)
    (set_orders
       (<[orderId := Api.order_data b paymentIntentId (now w)]> (orders w))
       (add_event (StripeRetrieve paymentIntentId) w)).

Module MoreExamples.

(** A paid order whose [userId] is the empty string. *)
Definition anonymous_body : order_body :=
  {| ob_userId := Val "";
     ob_items := Val [ {| productId := "p1"; quantity := 2 |} ];
     ob_total := Val hundred;
     ob_shippingAddress := Val "1 Main Street";
     ob_paymentIntentId := Val "pi_1" |}.

(** A paid order without items and without a [total]. *)
Definition no_total_body : order_body :=
  {| ob_userId := Val "u2";
     ob_items := Val [];
     ob_total := Undefined;
     ob_shippingAddress := Val "1 Main Street";
     ob_paymentIntentId := Val "pi_1" |}.

(** A paid order without items, its [total] null. *)
Definition empty_body : order_body :=
  {| ob_userId := Val "u2";
     ob_items := Val [];
     ob_total := Null;
     ob_shippingAddress := Val "1 Main Street";
     ob_paymentIntentId := Val "pi_1" |}.

(** Two orders made one microsecond apart, on 14 November 2023: [a] is
    the older one. *)
Definition close_orders : World :=
  Examples.with_orders
    {[ "a" := Examples.an_order 1700000000000000 (Val hundred);
       "b" := Examples.an_order 1700000000000001 (Val hundred) ]}.

(** The value of the literal [0.015]: [8646911284551352 / 2^59], a little
    below 0.015. *)
Definition amount_0_015 : number := S754_finite false 8646911284551352 (-59).

(** The value of the literal [1e308]: [5010420900022432 * 2^971]. *)
Definition amount_1e308 : number := S754_finite false 5010420900022432 971.

(** An order whose intent the provider does not know. *)
Definition unknown_intent_request : order_request :=
  {| or_userId := "u2";
     or_items := or_items Examples.paid_request;
     or_total := hundred;
     or_shippingAddress := "1 Main Street";
     or_paymentIntentId := "pi_404" |}.


Definition no_header_request : analytics_request :=
  {| authorization := None |}.

Definition bad_token_request : analytics_request :=
  {| authorization := Some "Bearer tok_forged" |}.

End MoreExamples.
(** * Properties *)

(** ** Running the monad *)

Ltac run :=
  unfold try_catch_500, mbind, M_bind, mret, M_ret, throw, emit, ask, update;
  cbn beta iota.


Lemma increment_increment (a b : Z) (p : product) :
  Firestore.increment b (Firestore.increment a p) = Firestore.increment (a + b) p.
Proof.
  unfold Firestore.increment; cbn. f_equal. lia.
Qed.

Lemma increment_0 (p : product) : Firestore.increment 0 p = p.
Proof.
  destruct p; unfold Firestore.increment; cbn. f_equal. lia.
Qed.

(** ** Numbers: [Math.round] *)

Lemma digits2_pos_bounds (p : positive) :
  2 ^ (Zpos (digits2_pos p) - 1) <= Zpos p < 2 ^ Zpos (digits2_pos p).
Proof.
  induction p as [p IH|p IH|]; cbn [digits2_pos].
  - rewrite Pos2Z.inj_succ.
    replace (Z.succ (Zpos (digits2_pos p)) - 1) with (Z.succ (Zpos (digits2_pos p) - 1)) by lia.
    rewrite !Z.pow_succ_r by lia. lia.
  - rewrite Pos2Z.inj_succ.
    replace (Z.succ (Zpos (digits2_pos p)) - 1) with (Z.succ (Zpos (digits2_pos p) - 1)) by lia.
    rewrite !Z.pow_succ_r by lia. lia.
  - cbn. lia.
Qed.

Lemma iter_xO_value (p q : positive) :
  Zpos (Pos.iter xO p q) = Zpos p * 2 ^ Zpos q.
Proof.
  induction q as [|q IH] using Pos.peano_ind.
  - cbn. lia.
  - rewrite Pos.iter_succ, Pos2Z.inj_succ, Z.pow_succ_r by lia.
    rewrite Pos2Z.inj_xO, IH. lia.
Qed.

Lemma iter_xO_digits (p q : positive) :
  digits2_pos (Pos.iter xO p q) = (digits2_pos p + q)%positive.
Proof.
  induction q as [|q IH] using Pos.peano_ind.
  - cbn. lia.
  - rewrite Pos.iter_succ. cbn [digits2_pos]. rewrite IH. lia.
Qed.

Lemma binary_round_aux_canonical (s : bool) (m : positive) (e : Z) :
  Zpos (digits2_pos m) = prec ->
  emin prec emax <= e <= emax - prec ->
  binary_round_aux prec emax s (Zpos m) e loc_Exact = S754_finite s m e.
Proof.
  intros Hd He. unfold binary_round_aux, shr_fexp, fexp, Zdigits2.
  rewrite Hd.
  replace (Z.max (prec + e - prec) (emin prec emax) - e) with 0 by lia.
  cbn [shr shr_record_of_loc shr_m loc_of_shr_record round_nearest_even Zdigits2].
  rewrite Hd.
  replace (Z.max (prec + e - prec) (emin prec emax) - e) with 0 by lia.
  cbn [shr shr_record_of_loc shr_m].
  destruct (Z.leb_spec e (emax - prec)); [reflexivity|lia].
Qed.

Lemma of_int_to_int (n : Z) (s : bool) :
  Z.abs n < 2 ^ 53 -> to_int (of_int n s) = Some n.
Proof.
  intros Hn. unfold of_int, binary_normalize.
  assert (Hpos : forall sx p, Zpos p < 2 ^ 53 ->
            to_int (binary_round prec emax sx p 0) = Some (cond_Zopp sx (Zpos p))).
  { clear. intros sx p Hp.
    pose proof (digits2_pos_bounds p) as [Hlo _].
    assert (Hd : Zpos (digits2_pos p) <= 53).
    { destruct (Z.le_gt_cases (Zpos (digits2_pos p)) 53) as [|Hgt]; [assumption|].
      assert (2 ^ 53 <= 2 ^ (Zpos (digits2_pos p) - 1)) by (apply Z.pow_le_mono_r; lia).
      lia. }
    unfold binary_round, shl_align, fexp.
    replace (Z.max (Zpos (digits2_pos p) + 0 - prec) (emin prec emax) - 0)
      with (Zpos (digits2_pos p) - 53) by (unfold prec, emin, emax; lia).
    destruct (Zpos (digits2_pos p) - 53) as [|q|q] eqn:Hq; [|lia|].
    - rewrite binary_round_aux_canonical; [|unfold prec; lia|unfold prec, emin, emax; lia].
      cbn. f_equal. f_equal. lia.
    - assert (Hdq : Zpos (digits2_pos (Pos.iter xO p q)) = prec).
      { rewrite iter_xO_digits. unfold prec. lia. }
      replace (Z.max (Zpos (digits2_pos p) + 0 - prec) (emin prec emax))
        with (Zneg q) by (unfold prec, emin, emax; lia).
      rewrite binary_round_aux_canonical;
        [|exact Hdq|unfold prec, emin, emax; lia].
      unfold to_int. cbn [Z.leb Z.compare Z.opp].
      rewrite iter_xO_value, Z.mod_mul by lia. cbn [Z.eqb].
      rewrite Z.div_mul by lia. reflexivity. }
  destruct n as [|p|p].
  - reflexivity.
  - apply (Hpos false). lia.
  - apply (Hpos true). lia.
Qed.

Lemma round_half_up_nearest (M k : Z) :
  0 < k ->
  2 * M - 2 ^ k < 2 * round_half_up M k * 2 ^ k <= 2 * M + 2 ^ k.
Proof.
  intros Hk. unfold round_half_up.
  assert (Hpow : 2 ^ k = 2 * 2 ^ (k - 1)).
  { replace k with (Z.succ (k - 1)) at 1 by lia. apply Z.pow_succ_r. lia. }
  assert (Hpos : 0 < 2 ^ (k - 1)) by (apply Z.pow_pos_nonneg; lia).
  pose proof (Z.div_mod (M + 2 ^ (k - 1)) (2 ^ k)) as Hdm.
  pose proof (Z.mod_pos_bound (M + 2 ^ (k - 1)) (2 ^ k)) as Hb.
  lia.
Qed.

Lemma round_half_up_bound (M k : Z) :
  0 < k -> Z.abs M < 2 ^ 53 -> Z.abs (round_half_up M k) < 2 ^ 53.
Proof.
  intros Hk HM.
  pose proof (round_half_up_nearest M k Hk) as Hn.
  assert (Hpow : 2 ^ k = 2 * 2 ^ (k - 1)).
  { replace k with (Z.succ (k - 1)) at 1 by lia. apply Z.pow_succ_r. lia. }
  assert (Hpos : 0 < 2 ^ (k - 1)) by (apply Z.pow_pos_nonneg; lia).
  nia.
Qed.


Lemma Math_round_rounds (x : number) (s : bool) (m : positive) (e : Z) :
  x = S754_finite s m e ->
  Zpos m < 2 ^ 53 ->
  exists n, to_int (Math_round x) = Some n /\ is_rounding x n.
Proof.
  intros -> Hm. unfold Math_round, is_rounding.
  destruct (Z.leb_spec 0 e) as [He|He].
  - exists (cond_Zopp s (Zpos m) * 2 ^ e). split; [|reflexivity].
    unfold to_int. destruct (Z.leb_spec 0 e); [|lia].
    f_equal. destruct s; cbn [cond_Zopp]; lia.
  - exists (round_half_up (cond_Zopp s (Zpos m)) (- e)). split.
    + apply of_int_to_int. apply round_half_up_bound; [lia|].
      destruct s; cbn [cond_Zopp]; lia.
    + apply round_half_up_nearest. lia.
Qed.

(** ** Numbers: a sum is [-0] only when both terms are *)

Lemma shr_1_m (r : shr_record) :
  0 <= shr_m r -> shr_m (shr_1 r) = shr_m r / 2.
Proof.
  destruct r as [m r s]. cbn [shr_m]. intros Hm.
  destruct m as [|[p|p|]|p]; cbn [shr_1 shr_m]; try reflexivity; try lia.
  - apply Z.div_unique with 1; lia.
  - apply Z.div_unique with 0; lia.
Qed.

Lemma iter_shr_1_m (p : positive) :
  forall r, 0 <= shr_m r ->
    shr_m (SpecFloat.iter_pos shr_1 p r) = shr_m r / 2 ^ Zpos p.
Proof.
  assert (Hpow : forall q, 0 < 2 ^ Zpos q) by (intros; apply Z.pow_pos_nonneg; lia).
  induction p as [p IH|p IH|]; intros r Hr; cbn [SpecFloat.iter_pos].
  - assert (HxI : 2 ^ Zpos p~1 = 2 * (2 ^ Zpos p * 2 ^ Zpos p)).
    { rewrite Pos2Z.inj_xI, <- Z.pow_add_r, <- Z.pow_succ_r by lia. f_equal. lia. }
    assert (H1 : 0 <= shr_m (shr_1 r)) by (rewrite shr_1_m by lia; apply Z.div_pos; lia).
    assert (H2 : 0 <= shr_m (SpecFloat.iter_pos shr_1 p (shr_1 r))).
    { rewrite IH by lia. apply Z.div_pos; [lia|apply Hpow]. }
    rewrite IH, IH, shr_1_m by lia.
    pose proof (Hpow p).
    rewrite !Z.div_div by lia. now rewrite HxI.
  - assert (HxO : 2 ^ Zpos p~0 = 2 ^ Zpos p * 2 ^ Zpos p).
    { rewrite Pos2Z.inj_xO, <- Z.pow_add_r by lia. f_equal. lia. }
    assert (H2 : 0 <= shr_m (SpecFloat.iter_pos shr_1 p r)).
    { rewrite IH by lia. apply Z.div_pos; [lia|apply Hpow]. }
    rewrite IH, IH by lia.
    pose proof (Hpow p).
    rewrite !Z.div_div by lia. now rewrite HxO.
  - rewrite shr_1_m by lia. reflexivity.
Qed.

Lemma shr_fexp_positive (m e : Z) (l : location) :
  0 < m -> emin prec emax <= e ->
  0 < shr_m (fst (shr_fexp prec emax m e l)) /\
  emin prec emax <= snd (shr_fexp prec emax m e l).
Proof.
  intros Hm He. unfold shr_fexp, shr, fexp.
  destruct m as [|p|p]; try lia. cbn [Zdigits2].
  assert (Hrec : shr_m (shr_record_of_loc (Zpos p) l) = Zpos p).
  { destruct l as [|[]]; reflexivity. }
  destruct (Z.max (Zpos (digits2_pos p) + e - prec) (emin prec emax) - e)
    as [|q|q] eqn:Hq; cbn [fst snd]; try (rewrite Hrec; lia).
  split; [|lia].
  rewrite iter_shr_1_m by (rewrite Hrec; lia). rewrite Hrec.
  pose proof (digits2_pos_bounds p) as [Hlo _].
  assert (Hle : 2 ^ Zpos q <= 2 ^ (Zpos (digits2_pos p) - 1)).
  { apply Z.pow_le_mono_r; unfold prec in *; lia. }
  apply Z.div_str_pos. split; [apply Z.pow_pos_nonneg; lia | lia].
Qed.

Lemma round_nearest_even_positive (m : Z) (l : location) :
  0 < m -> 0 < round_nearest_even m l.
Proof.
  intros Hm. unfold round_nearest_even.
  destruct l as [|[]]; try lia. destruct (Z.even m); lia.
Qed.

Lemma binary_round_aux_nonzero (s : bool) (m e : Z) (l : location) :
  0 < m -> emin prec emax <= e ->
  nonzero_above_emin (binary_round_aux prec emax s m e l).
Proof.
  intros Hm He. unfold binary_round_aux.
  pose proof (shr_fexp_positive m e l Hm He) as [Hm1 He1].
  destruct (shr_fexp prec emax m e l) as [r1 e1]. cbn [fst snd] in *.
  pose proof (round_nearest_even_positive (shr_m r1) (loc_of_shr_record r1) Hm1)
    as Hm2.
  pose proof (shr_fexp_positive _ e1 loc_Exact Hm2 He1) as [Hm3 He3].
  destruct (shr_fexp prec emax _ e1 loc_Exact) as [r2 e2]. cbn [fst snd] in *.
  destruct (shr_m r2) as [|p|p]; try lia.
  destruct (e2 <=? emax - prec); cbn; [exact He3 | exact I].
Qed.

Lemma binary_round_nonzero (s : bool) (m : positive) (e : Z) :
  emin prec emax <= e ->
  nonzero_above_emin (binary_round prec emax s m e).
Proof.
  intros He. unfold binary_round, shl_align.
  destruct (fexp prec emax (Zpos (digits2_pos m) + e) - e) as [|q|q] eqn:Hq;
    apply binary_round_aux_nonzero; try lia.
  unfold fexp in *. lia.
Qed.

Lemma js_add_not_negative_zero (x y : number) :
  x <> S754_zero true -> above_emin x -> above_emin y ->
  js_add x y <> S754_zero true /\ above_emin (js_add x y).
Proof.
  intros Hx Hex Hey. unfold js_add, SFadd.
  destruct x as [[]| [] | |sx mx ex], y as [[]| [] | |sy my ey];
    try (split; [discriminate | exact I]);
    try (split; [discriminate | assumption]);
    try congruence.
  cbn [above_emin] in *.
  set (sum := cond_Zopp sx (Zpos (fst (shl_align mx ex (Z.min ex ey))))
              + cond_Zopp sy (Zpos (fst (shl_align my ey (Z.min ex ey))))).
  unfold binary_normalize.
  destruct sum as [|p|p]; [split; [discriminate | exact I]| |].
  - pose proof (binary_round_nonzero false p (Z.min ex ey) ltac:(lia)) as H.
    destruct (binary_round prec emax false p (Z.min ex ey)); cbn in *;
      (split; [congruence || (intros [=]; contradiction) | tauto || exact H]).
  - pose proof (binary_round_nonzero true p (Z.min ex ey) ltac:(lia)) as H.
    destruct (binary_round prec emax true p (Z.min ex ey)); cbn in *;
      (split; [congruence || (intros [=]; contradiction) | tauto || exact H]).
Qed.

Lemma js_add_zero_r (x : number) :
  x <> S754_zero true -> js_add x zero = x.
Proof.
  intros Hx. destruct x as [[]| [] | |sx mx ex]; try reflexivity. congruence.
Qed.

Lemma valid_binary_above_emin (x : number) :
  valid_binary prec emax x = true -> above_emin x.
Proof.
  destruct x as [| | |s m e]; cbn; try tauto.
  unfold bounded, canonical_mantissa, fexp. intros H.
  apply andb_prop in H as [H _]. apply Z.eqb_eq in H. lia.
Qed.


(** ** Numbers: the mantissa of a product has at most 53 bits *)

Lemma shr_fexp_bound (m e : Z) (l : location) :
  0 <= m -> 0 <= shr_m (fst (shr_fexp prec emax m e l)) < 2 ^ prec.
Proof.
  intros Hm. unfold shr_fexp, shr, fexp.
  assert (Hrec : shr_m (shr_record_of_loc m l) = m).
  { destruct l as [|[]]; reflexivity. }
  assert (Hd : m < 2 ^ Zdigits2 m /\ 0 <= Zdigits2 m).
  { destruct m as [|p|p]; cbn [Zdigits2]; try lia.
    pose proof (digits2_pos_bounds p). lia. }
  destruct Hd as [Hd Hd0].
  destruct (Z.max (Zdigits2 m + e - prec) (emin prec emax) - e)
    as [|q|q] eqn:Hq; cbn [fst]; rewrite ?iter_shr_1_m by (rewrite Hrec; lia);
    rewrite Hrec.
  - split; [lia|]. apply Z.lt_le_trans with (1 := Hd).
    apply Z.pow_le_mono_r; lia.
  - assert (Hpow : 0 < 2 ^ Zpos q) by (apply Z.pow_pos_nonneg; lia).
    split; [apply Z.div_pos; lia|].
    apply Z.div_lt_upper_bound; [lia|].
    rewrite <- Z.pow_add_r by (unfold prec; lia).
    apply Z.lt_le_trans with (1 := Hd).
    apply Z.pow_le_mono_r; lia.
  - split; [lia|]. apply Z.lt_le_trans with (1 := Hd).
    apply Z.pow_le_mono_r; lia.
Qed.

Lemma round_nearest_even_nonneg (m : Z) (l : location) :
  0 <= m -> 0 <= round_nearest_even m l.
Proof.
  intros Hm. unfold round_nearest_even.
  destruct l as [|[]]; try lia. destruct (Z.even m); lia.
Qed.

Lemma binary_round_aux_mantissa (s : bool) (m e : Z) (l : location) :
  0 <= m ->
  forall s' m' e',
    binary_round_aux prec emax s m e l = S754_finite s' m' e' ->
    Zpos m' < 2 ^ 53.
Proof.
  intros Hm s' m' e'. unfold binary_round_aux.
  pose proof (shr_fexp_bound m e l Hm) as [Hm1 _].
  destruct (shr_fexp prec emax m e l) as [r1 e1]. cbn [fst] in Hm1.
  pose proof (round_nearest_even_nonneg _ (loc_of_shr_record r1) Hm1) as Hm2.
  pose proof (shr_fexp_bound _ e1 loc_Exact Hm2) as [_ Hm3].
  destruct (shr_fexp prec emax _ e1 loc_Exact) as [r2 e2]. cbn [fst] in Hm3.
  destruct (shr_m r2) as [|p|p]; try discriminate.
  destruct (e2 <=? emax - prec); [|discriminate].
  intros [= <- <- <-]. exact Hm3.
Qed.

Lemma js_mul_mantissa (x y : number) (s : bool) (m : positive) (e : Z) :
  js_mul x y = S754_finite s m e -> Zpos m < 2 ^ 53.
Proof.
  unfold js_mul, SFmul.
  destruct x as [?|?| |sx mx ex], y as [?|?| |sy my ey]; try discriminate.
  apply binary_round_aux_mantissa. lia.
Qed.

Lemma to_cents_rounds (amount : number) (s : bool) (m : positive) (e : Z) :
  js_mul amount hundred = S754_finite s m e ->
  exists n, to_int (Api.to_cents amount) = Some n /\
            is_rounding (js_mul amount hundred) n.
Proof.
  intros Hprod. unfold Api.to_cents.
  exact (Math_round_rounds _ s m e Hprod (js_mul_mantissa _ _ _ _ _ Hprod)).
Qed.

(** ** The batch of stock updates *)

Lemma delta_sum_stock_updates (id : string) (items : list item) :
  delta_sum id (Api.stock_updates items) = - ordered id items.
Proof.
  unfold Api.stock_updates.
  induction items as [|it items IH]; cbn [map delta_sum ordered]; [reflexivity|].
  rewrite IH. destruct (decide (productId it = id)); lia.
Qed.

Lemma apply_updates_lookup (ups : list (string * Z)) :
  forall ps ps' : gmap string product,
    Firestore.apply_updates ups ps = Some ps' ->
    forall id, ps' !! id = Firestore.increment (delta_sum id ups) <$> ps !! id.
Proof.
  induction ups as [|[id0 d] ups IH]; intros ps ps' Hrun id; cbn in *.
  - injection Hrun as <-. destruct (ps !! id) as [p|]; cbn; [|reflexivity].
    now rewrite increment_0.
  - destruct (ps !! id0) as [p0|] eqn:Hp0; [|discriminate].
    rewrite (IH _ _ Hrun id).
    destruct (decide (id0 = id)) as [->|Hne].
    + rewrite lookup_insert_eq, Hp0. cbn. now rewrite increment_increment.
    + rewrite lookup_insert_ne by assumption.
      now replace (0 + delta_sum id ups) with (delta_sum id ups) by lia.
Qed.

Lemma apply_updates_exists (ups : list (string * Z)) :
  forall ps : gmap string product,
    Forall (fun u => is_Some (ps !! fst u)) ups ->
    exists ps', Firestore.apply_updates ups ps = Some ps'.
Proof.
  induction ups as [|[id0 d] ups IH]; intros ps Hall; cbn.
  - now exists ps.
  - inversion Hall as [|? ? [p0 Hp0] Hrest]; subst. cbn in Hp0. rewrite Hp0.
    apply IH. eapply Forall_impl; [exact Hrest|].
    intros [id1 d1] [p1 Hp1]; cbn in *.
    destruct (decide (id0 = id1)) as [->|Hne].
    + rewrite lookup_insert_eq. eauto.
    + rewrite lookup_insert_ne by assumption. eauto.
Qed.


Lemma apply_updates_known (ups : list (string * Z)) :
  forall ps ps' : gmap string product,
    Firestore.apply_updates ups ps = Some ps' ->
    Forall (fun u => is_Some (ps !! fst u)) ups.
Proof.
  induction ups as [|[id0 d] ups IH]; intros ps ps' Hrun; cbn in *.
  - constructor.
  - destruct (ps !! id0) as [p0|] eqn:Hp0; [|discriminate].
    constructor; [cbn; eauto|].
    eapply Forall_impl; [exact (IH _ _ Hrun)|].
    intros [id1 d1] Hsome; cbn in *.
    destruct (decide (id0 = id1)) as [<-|Hne]; [eauto|].
    now rewrite lookup_insert_ne in Hsome.
Qed.

Lemma NoDup_ordered (items : list item) (it : item) :
  NoDup (map productId items) -> In it items ->
  ordered (productId it) items = quantity it.
Proof.
  induction items as [|it0 items IH]; intros Hnd Hin; [destruct Hin|].
  cbn in Hnd. apply NoDup_cons in Hnd as [Hnotin Hnd]. cbn.
  destruct Hin as [->|Hin].
  - rewrite decide_True by reflexivity.
    assert (Hz : forall l, productId it ∉ map productId l ->
                           ordered (productId it) l = 0).
    { induction l as [|x l IHl]; cbn; intros Hx; [reflexivity|].
      apply not_elem_of_cons in Hx as [Hne Hx].
      rewrite decide_False by congruence. now rewrite IHl. }
    rewrite Hz by assumption. lia.
  - rewrite decide_False.
    + rewrite IH by assumption. lia.
    + intros Heq. apply Hnotin. rewrite Heq.
      apply list_elem_of_In, in_map, Hin.
Qed.

(** ** [/process-order] *)




Lemma process_order_run_unpaid (req : order_request) (w : World) (st : string) :
  intents w !! or_paymentIntentId req = Some st ->
  st <> "succeeded" ->
  Api.process_order req w =
    (status_json 400 (ErrorBody "Payment not completed"),
     add_event (StripeRetrieve (or_paymentIntentId req)) w).
Proof.
  intros Hst Hne.
  unfold Api.process_order, Api.process_order_body,
    Stripe.paymentIntents_retrieve.
  run. cbn. rewrite Hst. cbn.
  destruct (String.eqb st "succeeded") eqn:Heq; [|reflexivity].
  apply String.eqb_eq in Heq. contradiction.
Qed.

Lemma fresh_order_id (w : World) : orders w !! fresh (dom (orders w)) = None.
Proof.
  apply not_elem_of_dom. apply is_fresh.
Qed.


Lemma updates_of_existing (items : list item) (ps : gmap string product) :
  Forall (fun it => is_Some (ps !! productId it)) items ->
  Forall (fun u => is_Some (ps !! fst u)) (Api.stock_updates items).
Proof.
  unfold Api.stock_updates. intros Hall.
  apply Forall_map. eapply Forall_impl; [exact Hall|]. now intros it.
Qed.

Lemma stock_after_batch (items : list item) (ps ps' : gmap string product) :
  Firestore.apply_updates (Api.stock_updates items) ps = Some ps' ->
  forall id, ps' !! id = Firestore.increment (- ordered id items) <$> ps !! id.
Proof.
  intros Hrun id. rewrite (apply_updates_lookup _ _ _ Hrun id).
  now rewrite delta_sum_stock_updates.
Qed.

(** C2. When the payment intent of the request has a status other than
    "succeeded", [/process-order] answers 400 with the error "Payment not
    completed" and writes no document: the orders, every product (so every
    stock), the carts and the other collections are as they were, and the
    only call the handler made is the retrieval of the intent. *)
Theorem process_order_unpaid (req : order_request) (w : World) (st : string) :
  intents w !! or_paymentIntentId req = Some st ->
  st <> "succeeded" ->
  let (res, w') := Api.process_order req w in
  res = status_json 400 (ErrorBody "Payment not completed") /\
  orders w' = orders w /\
  products w' = products w /\
  carts w' = carts w /\
  users w' = users w /\
  search_index w' = search_index w /\
  exists calls, trace w' = trace w ++ calls /\
                Forall (fun e => is_write e = false) calls.
Proof.
  intros Hst Hne. rewrite (process_order_run_unpaid req w st Hst Hne).
  repeat split; try reflexivity.
  exists [StripeRetrieve (or_paymentIntentId req)]. split; [reflexivity|].
  repeat constructor.
Qed.

Lemma process_order_unpaid_witness :
  intents Examples.shop !! or_paymentIntentId Examples.unpaid_request
    = Some "processing" /\
  let (res, w') := Api.process_order Examples.unpaid_request Examples.shop in
  res = status_json 400 (ErrorBody "Payment not completed") /\
  orders w' = orders Examples.shop /\
  products w' = products Examples.shop /\
  carts w' = carts Examples.shop /\
  users w' = users Examples.shop /\
  search_index w' = search_index Examples.shop /\
  exists calls, trace w' = trace Examples.shop ++ calls /\
                Forall (fun e => is_write e = false) calls.
Proof.
  split; [reflexivity|].
  apply (process_order_unpaid Examples.unpaid_request Examples.shop "processing");
    [reflexivity | discriminate].
Defined.

(** ** [Array.prototype.sort] *)

Section Sort.

Context {A : Type} (compare : A -> A -> number).

Lemma sort_insert_perm (x : A) (l : list A) :
  Permutation (x :: l) (Api.sort_insert compare x l).
Proof.
  induction l as [|y l IH]; cbn; [reflexivity|].
  destruct (is_positive (compare x y)); [|reflexivity].
  rewrite perm_swap. now constructor.
Qed.

Lemma sort_perm (l : list A) : Permutation l (Api.sort compare l).
Proof.
  unfold Api.sort. induction l as [|x l IH]; cbn; [reflexivity|].
  rewrite <- sort_insert_perm. now constructor.
Qed.

End Sort.

(** ** [collection.get()] *)

Lemma insert_by_id_perm {A} (d : string * A) (l : list (string * A)) :
  Permutation (d :: l) (Firestore.insert_by_id d l).
Proof.
  induction l as [|e l IH]; cbn; [reflexivity|].
  destruct (String.leb (fst d) (fst e)); [reflexivity|].
  rewrite perm_swap. now constructor.
Qed.

Lemma documents_perm {A} (m : gmap string A) :
  Permutation (map_to_list m) (Firestore.documents m).
Proof.
  unfold Firestore.documents.
  induction (map_to_list m) as [|d l IH]; cbn; [reflexivity|].
  rewrite <- insert_by_id_perm. now constructor.
Qed.

Lemma insert_by_id_sorted {A} (d : string * A) (l : list (string * A)) :
  Sorted (fun d e => String.leb (fst d) (fst e) = true) l ->
  Sorted (fun d e => String.leb (fst d) (fst e) = true)
         (Firestore.insert_by_id d l).
Proof.
  induction 1 as [|e l Hsorted IH Hhd]; cbn.
  - repeat constructor.
  - destruct (String.leb (fst d) (fst e)) eqn:Hle.
    + constructor; [now constructor|]. now constructor.
    + constructor; [exact IH|].
      assert (Hed : String.leb (fst e) (fst d) = true).
      { destruct (String.leb_total (fst d) (fst e)); congruence. }
      destruct Hhd as [|e' l' He']; cbn; [now constructor|].
      destruct (String.leb (fst d) (fst e')); now constructor.
Qed.

Lemma documents_by_ascending_id {A} (m : gmap string A) :
  by_ascending_id m (Firestore.documents m).
Proof.
  split; [apply documents_perm|].
  unfold Firestore.documents.
  induction (map_to_list m) as [|d l IH]; cbn; [constructor|].
  now apply insert_by_id_sorted.
Qed.

Lemma length_documents {A} (m : gmap string A) :
  length (Firestore.documents m) = size m.
Proof.
  rewrite <- (Permutation_length (documents_perm m)).
  apply length_map_to_list.
Qed.

Lemma In_documents {A} (m : gmap string A) (id : string) (x : A) :
  In (id, x) (Firestore.documents m) <-> m !! id = Some x.
Proof.
  rewrite <- elem_of_map_to_list, <- list_elem_of_In.
  now rewrite (documents_perm m).
Qed.

Lemma NoDup_fst_documents {A} (m : gmap string A) :
  NoDup (Firestore.documents m).*1.
Proof.
  rewrite <- (documents_perm m). apply NoDup_fst_map_to_list.
Qed.

(** ** [/analytics] *)

Lemma analytics_run_refused (req : analytics_request) (w : World)
    (tok uid : string) :
  Api.bearer_token req = Some tok ->
  id_tokens w !! tok = Some uid ->
  Api.not_admin (users w !! uid) = true ->
  Api.analytics req w =
    (status_json 403 (ErrorBody "Unauthorized"), analytics_refused tok uid w).
Proof.
  intros Htok Huid Hrole.
  unfold Api.analytics, Api.analytics_body, Auth.verifyIdToken,
    Firestore.users_doc_get.
  rewrite Htok. run. cbn. rewrite Huid. cbn. rewrite Hrole. reflexivity.
Qed.

Lemma analytics_run_served (req : analytics_request) (w : World)
    (tok uid : string) :
  Api.bearer_token req = Some tok ->
  id_tokens w !! tok = Some uid ->
  Api.not_admin (users w !! uid) = false ->
  Api.analytics req w =
    (json (AnalyticsBody
       (Api.analytics_object (Firestore.documents (orders w))
          (Firestore.documents (products w)) (Firestore.documents (users w)))),
     analytics_served tok uid w).
Proof.
  intros Htok Huid Hrole.
  unfold Api.analytics, Api.analytics_body, Auth.verifyIdToken,
    Firestore.users_doc_get, Firestore.orders_get, Firestore.products_get,
    Firestore.users_get.
  rewrite Htok. run. cbn. rewrite Huid. cbn. rewrite Hrole. reflexivity.
Qed.

(** The handler answers with an analytics object on one path only. *)
Lemma analytics_body_inv (req : analytics_request) (w : World)
    (a : analytics_data) :
  r_body (fst (Api.analytics req w)) = AnalyticsBody a ->
  a = Api.analytics_object (Firestore.documents (orders w))
        (Firestore.documents (products w)) (Firestore.documents (users w)).
Proof.
  unfold Api.analytics, Api.analytics_body, Auth.verifyIdToken,
    Firestore.users_doc_get, Firestore.orders_get, Firestore.products_get,
    Firestore.users_get.
  destruct (Api.bearer_token req) as [tok|]; run; cbn; [|discriminate].
  destruct (id_tokens w !! tok) as [uid|]; cbn; [|discriminate].
  destruct (Api.not_admin (users w !! uid)); cbn; [discriminate|].
  congruence.
Qed.

Lemma not_admin_spec (userDoc : option user) :
  Api.not_admin userDoc = true <->
  userDoc = None \/ exists u, userDoc = Some u /\ u_role u <> Val "admin".
Proof.
  unfold Api.not_admin. split.
  - destruct userDoc as [u|]; [|now left]. intros Hrole. right.
    exists u. split; [reflexivity|].
    destruct (u_role u) as [| |r]; try discriminate.
    intros [= ->]. discriminate.
  - intros [->|(u & -> & Hrole)]; [reflexivity|].
    destruct (u_role u) as [| |r]; try reflexivity.
    destruct (String.eqb r "admin") eqn:Heq; [|reflexivity].
    apply String.eqb_eq in Heq. congruence.
Qed.

(** C3. When the token of an analytics request verifies and the user
    document of its uid does not exist or has a role other than "admin",
    the handler answers 403, and none of its calls reads a whole
    collection: it has verified the token and read one user document. *)
Theorem analytics_forbidden (req : analytics_request) (w : World)
    (tok uid : string) :
  Api.bearer_token req = Some tok ->
  id_tokens w !! tok = Some uid ->
  (users w !! uid = None \/
   exists u, users w !! uid = Some u /\ u_role u <> Val "admin") ->
  let (res, w') := Api.analytics req w in
  res = status_json 403 (ErrorBody "Unauthorized") /\
  trace w' = trace w ++ [AuthVerify (Some tok); DocGet Users uid] /\
  exists calls, trace w' = trace w ++ calls /\
                Forall (fun e => is_collection_get e = false) calls.
Proof.
  intros Htok Huid Hrole. apply not_admin_spec in Hrole.
  rewrite (analytics_run_refused req w tok uid Htok Huid Hrole).
  assert (Htrace : trace (analytics_refused tok uid w)
                   = trace w ++ [AuthVerify (Some tok); DocGet Users uid]).
  { cbn. now rewrite <- app_assoc. }
  split; [reflexivity|]. split; [exact Htrace|].
  eexists. split; [exact Htrace|]. repeat constructor.
Qed.

Lemma analytics_forbidden_witness :
  Api.bearer_token Examples.customer_request = Some "tok_user" /\
  id_tokens Examples.shop !! "tok_user" = Some "u2" /\
  (exists u, users Examples.shop !! "u2" = Some u /\ u_role u <> Val "admin") /\
  Api.bearer_token Examples.ghost_user_request = Some "tok_ghost" /\
  id_tokens Examples.shop !! "tok_ghost" = Some "u3" /\
  users Examples.shop !! "u3" = None /\
  fst (Api.analytics Examples.customer_request Examples.shop)
    = status_json 403 (ErrorBody "Unauthorized") /\
  fst (Api.analytics Examples.ghost_user_request Examples.shop)
    = status_json 403 (ErrorBody "Unauthorized").
Proof.
  assert (Hrole : exists u, users Examples.shop !! "u2" = Some u
                            /\ u_role u <> Val "admin").
  { eexists. split; [reflexivity | discriminate]. }
  do 6 (split; [first [reflexivity | exact Hrole]|]).
  split.
  - pose proof (analytics_forbidden Examples.customer_request Examples.shop
                  "tok_user" "u2" eq_refl eq_refl (or_intror Hrole)) as H.
    destruct (Api.analytics Examples.customer_request Examples.shop).
    apply H.
  - pose proof (analytics_forbidden Examples.ghost_user_request Examples.shop
                  "tok_ghost" "u3" eq_refl eq_refl (or_introl eq_refl)) as H.
    destruct (Api.analytics Examples.ghost_user_request Examples.shop).
    apply H.
Defined.

Lemma create_payment_intent_run (req : payment_request) (w : World) :
  Api.create_payment_intent req w =
    (match provider_create w (Api.intent_of req) with
     | inl message => status_json 500 (ErrorBody message)
     | inr client_secret => json (ClientSecretBody client_secret)
     end,
     add_event (StripeCreate (Api.intent_of req)) w).
Proof.
  unfold Api.create_payment_intent, Api.create_payment_intent_body,
    Stripe.paymentIntents_create.
  run. cbn.
  destruct (provider_create w (Api.intent_of req)); reflexivity.
Qed.

(** The literal 19.995 is read as [Examples.amount_19_995]: no binary64
    number is nearer, the distance being at most half a unit in the last
    place, [2^-49]. *)
Lemma amount_19_995_nearest :
  Z.abs (1000 * 5628092159329567 - 19995 * 2 ^ 48) <= 500 /\
  SFdiv prec emax (of_int 19995 false) (of_int 1000 false)
    = Examples.amount_19_995.
Proof.
  split; [vm_compute; discriminate | vm_compute; reflexivity].
Qed.

(** C5, as the code has it. [/create-payment-intent] sends the provider
    [Math.round(amount * 100)], where the product is the binary64 product:
    when that product is a finite number, the amount sent is the integer
    nearest to the product (the upper one at a tie); when the product
    overflows, the infinity is sent as it is; in particular the amount
    19.995 is sent as 2000 minor units. *)
Theorem create_payment_intent_rounds (req : payment_request) (w : World) :
  let (res, w') := Api.create_payment_intent req w in
  exists p,
    trace w' = trace w ++ [StripeCreate p] /\
    ip_amount p = Math_round (js_mul (pr_amount req) hundred) /\
    (forall s m e,
        js_mul (pr_amount req) hundred = S754_finite s m e ->
        exists n, to_int (ip_amount p) = Some n /\
                  is_rounding (js_mul (pr_amount req) hundred) n) /\
    (forall s,
        js_mul (pr_amount req) hundred = S754_infinity s ->
        ip_amount p = S754_infinity s /\ to_int (ip_amount p) = None) /\
    (pr_amount req = Examples.amount_19_995 ->
     to_int (ip_amount p) = Some 2000).
Proof.
  rewrite create_payment_intent_run. exists (Api.intent_of req).
  split; [reflexivity|]. split; [reflexivity|]. split; [|split].
  - intros s m e Hprod. exact (to_cents_rounds _ s m e Hprod).
  - intros s Hprod. cbn. unfold Api.to_cents. rewrite Hprod.
    split; reflexivity.
  - intros Hamount. cbn. unfold Api.to_cents. rewrite Hamount.
    vm_compute. reflexivity.
Qed.

Lemma create_payment_intent_rounds_witness :
  js_mul (pr_amount Examples.payment_19_995) hundred
    = S754_finite false 8793893998952448 (-42) /\
  exists p,
    trace (snd (Api.create_payment_intent Examples.payment_19_995 Examples.shop))
      = [StripeCreate p] /\
    to_int (ip_amount p) = Some 2000 /\
    is_rounding (S754_finite false 8793893998952448 (-42)) 2000.
Proof.
  split; [vm_compute; reflexivity|].
  pose proof (create_payment_intent_rounds Examples.payment_19_995 Examples.shop)
    as H.
  destruct (Api.create_payment_intent Examples.payment_19_995 Examples.shop)
    as [res w'].
  destruct H as (p & Htrace & _ & _ & _ & H2000).
  exists p. split; [exact Htrace|]. split; [exact (H2000 eq_refl)|].
  vm_compute. split; [reflexivity | discriminate].
Defined.

(** C5, as the specification has it, fails. The literal 0.015 is read as
    the number [8646911284551352 / 2^59], a little below 0.015; a hundred
    times that amount is below 1.5 and the integer nearest to it is 1, but
    its binary64 product with 100 is 1.5 and the handler sends 2. The
    amount 1e308 is positive, its product with 100 overflows, and the
    handler sends the infinity, which is no integer. *)
Lemma create_payment_intent_rounds_counterexample :
  SFdiv prec emax (of_int 15 false) (of_int 1000 false)
    = MoreExamples.amount_0_015 /\
  hundredfold_rounding MoreExamples.amount_0_015 1 /\
  ~ hundredfold_rounding MoreExamples.amount_0_015 2 /\
  (exists p,
     trace (snd (Api.create_payment_intent
                   (Examples.payment_of MoreExamples.amount_0_015)
                   Examples.shop)) = [StripeCreate p] /\
     to_int (ip_amount p) = Some 2) /\
  (exists p,
     trace (snd (Api.create_payment_intent
                   (Examples.payment_of MoreExamples.amount_1e308)
                   Examples.shop)) = [StripeCreate p] /\
     ip_amount p = S754_infinity false /\
     to_int (ip_amount p) = None).
Proof.
  split; [vm_compute; reflexivity|].
  split; [vm_compute; split; [reflexivity | discriminate]|].
  split.
  { intros [_ H]. vm_compute in H. now apply H. }
  split.
  - rewrite create_payment_intent_run. eexists. split; [reflexivity|].
    vm_compute. reflexivity.
  - rewrite create_payment_intent_run. eexists. split; [reflexivity|].
    split; vm_compute; reflexivity.
Qed.

(** The rounding is that of the binary64 product: the literal 1.005 is read
    as a number a little below 1.005, its product with 100 is the number
    just below 100.5, and 100 is sent. *)
Remark create_payment_intent_1_005 :
  SFdiv prec emax (of_int 1005 false) (of_int 1000 false) = Examples.amount_1_005 /\
  to_int (Api.to_cents Examples.amount_1_005) = Some 100.
Proof.
  split; vm_compute; reflexivity.
Qed.

(** C8. [/create-payment-intent] validates nothing: whatever the request,
    a negative or a zero amount included, the one call of the handler is
    [paymentIntents.create] with the converted amount, and when the
    provider answers with an error the response is 500 with the text of
    that error in its [error] field (the client secret with 200
    otherwise). The handler touches no document. *)
Theorem create_payment_intent_no_validation (req : payment_request) (w : World) :
  let (res, w') := Api.create_payment_intent req w in
  trace w' = trace w ++ [StripeCreate (Api.intent_of req)] /\
  ip_amount (Api.intent_of req) = Math_round (js_mul (pr_amount req) hundred) /\
  (forall message,
      provider_create w (Api.intent_of req) = inl message ->
      res = status_json 500 (ErrorBody message)) /\
  (forall client_secret,
      provider_create w (Api.intent_of req) = inr client_secret ->
      res = json (ClientSecretBody client_secret)) /\
  to_int (ip_amount (Api.intent_of (Examples.payment_of Examples.amount_minus_5)))
    = Some (-500) /\
  ip_amount (Api.intent_of (Examples.payment_of zero)) = zero.
Proof.
  rewrite create_payment_intent_run.
  split; [reflexivity|]. split; [reflexivity|].
  split; [intros message ->; reflexivity|].
  split; [intros client_secret ->; reflexivity|].
  split; vm_compute; reflexivity.
Qed.

(** A negative amount against a provider that refuses it. *)
Lemma create_payment_intent_no_validation_witness :
  provider_create Examples.closed_provider
    (Api.intent_of (Examples.payment_of Examples.amount_minus_5))
    = inl "Invalid integer" /\
  let (res, w') :=
    Api.create_payment_intent (Examples.payment_of Examples.amount_minus_5)
      Examples.closed_provider in
  res = status_json 500 (ErrorBody "Invalid integer") /\
  trace w' =
    [StripeCreate (Api.intent_of (Examples.payment_of Examples.amount_minus_5))].
Proof.
  split; [reflexivity|].
  pose proof (create_payment_intent_no_validation
                (Examples.payment_of Examples.amount_minus_5)
                Examples.closed_provider) as H.
  destruct (Api.create_payment_intent _ _) as [res w'].
  destruct H as (Htrace & _ & Herr & _).
  split; [exact (Herr _ eq_refl) | exact Htrace].
Defined.

(** ** The revenue of [/analytics] *)

Lemma falsy_total_or_0 (o : order) : falsy_total o -> Api.total_or_0 o = zero.
Proof.
  unfold falsy_total, Api.total_or_0.
  destruct (o_total o) as [| |t]; try reflexivity. now intros ->.
Qed.

Lemma revenue_from (docs : list (string * order)) :
  Forall (fun doc => forall t, o_total (snd doc) = Val t -> above_emin t) docs ->
  forall acc : number,
    acc <> S754_zero true -> above_emin acc ->
    fold_left (fun sum doc => js_add sum (Api.total_or_0 (snd doc))) docs acc
    = fold_left js_add (truthy_totals docs) acc.
Proof.
  induction 1 as [|doc docs Hdoc Hdocs IH]; intros acc Hacc Hemin;
    cbn [fold_left truthy_totals]; [reflexivity|].
  unfold Api.total_or_0 at 2.
  destruct (o_total (snd doc)) as [| |t] eqn:Htotal;
    try (rewrite js_add_zero_r by assumption; now apply IH).
  destruct (truthy t).
  - cbn [fold_left].
    destruct (js_add_not_negative_zero acc t Hacc Hemin (Hdoc t eq_refl)).
    now apply IH.
  - rewrite js_add_zero_r by assumption. now apply IH.
Qed.

Lemma revenue_truthy (docs : list (string * order)) :
  Forall (fun doc => forall t, o_total (snd doc) = Val t -> above_emin t) docs ->
  Api.revenue docs = sum_numbers (truthy_totals docs).
Proof.
  intros Hdocs. unfold Api.revenue, sum_numbers.
  apply revenue_from; [exact Hdocs | discriminate | exact I].
Qed.

Lemma totals_binary64_check (os : gmap string order) :
  forallb (fun doc : string * order =>
             match o_total (snd doc) with
             | Val t => valid_binary prec emax t
             | _ => true
             end) (map_to_list os) = true ->
  totals_binary64 os.
Proof.
  intros Hall id o t Hlookup Htotal.
  rewrite forallb_forall in Hall.
  apply elem_of_map_to_list, list_elem_of_In in Hlookup.
  specialize (Hall _ Hlookup). cbn in Hall. now rewrite Htotal in Hall.
Qed.

(** C9. In the revenue of [/analytics] an order whose [total] is absent,
    null, zero or falsy in another way (NaN) counts for [0]: for an
    administrator the handler answers 200, whatever totals are missing,
    and [totalRevenue] is the sum of the truthy totals of the orders. *)
Theorem analytics_revenue (req : analytics_request) (w : World)
    (tok uid : string) (u : user) :
  Api.bearer_token req = Some tok ->
  id_tokens w !! tok = Some uid ->
  users w !! uid = Some u ->
  u_role u = Val "admin" ->
  totals_binary64 (orders w) ->
  (forall o, falsy_total o -> Api.total_or_0 o = zero) /\
  exists a,
    fst (Api.analytics req w) = json (AnalyticsBody a) /\
    r_status (fst (Api.analytics req w)) = 200 /\
    exists docs,
      by_ascending_id (orders w) docs /\
      totalRevenue a = sum_numbers (truthy_totals docs).
Proof.
  intros Htok Huid Hu Hrole Hvalid.
  split; [exact falsy_total_or_0|].
  assert (Hadmin : Api.not_admin (users w !! uid) = false).
  { rewrite Hu. unfold Api.not_admin. now rewrite Hrole. }
  rewrite (analytics_run_served req w tok uid Htok Huid Hadmin).
  eexists. split; [reflexivity|]. split; [reflexivity|].
  exists (Firestore.documents (orders w)).
  split; [apply documents_by_ascending_id|].
  cbn. apply revenue_truthy.
  apply Forall_forall. intros [id o] Hin t Htotal. cbn in *.
  apply valid_binary_above_emin.
  apply list_elem_of_In, In_documents in Hin. exact (Hvalid id o t Hin Htotal).
Qed.

Lemma analytics_revenue_witness :
  Api.bearer_token Examples.admin_request = Some "tok_admin" /\
  id_tokens Examples.busy_shop !! "tok_admin" = Some "u1" /\
  totals_binary64 (orders Examples.busy_shop) /\
  exists a,
    fst (Api.analytics Examples.admin_request Examples.busy_shop)
      = json (AnalyticsBody a) /\
    totalRevenue a = hundred /\
    exists docs,
      by_ascending_id (orders Examples.busy_shop) docs /\
      totalRevenue a = sum_numbers (truthy_totals docs).
Proof.
  assert (Hvalid : totals_binary64 (orders Examples.busy_shop)).
  { apply totals_binary64_check. vm_compute. reflexivity. }
  split; [reflexivity|]. split; [reflexivity|]. split; [exact Hvalid|].
  destruct (analytics_revenue Examples.admin_request Examples.busy_shop
              "tok_admin" "u1" {| u_email := Val "a@shop"; u_role := Val "admin" |}
              eq_refl eq_refl eq_refl eq_refl Hvalid)
    as (_ & a & Hres & _ & Hrevenue).
  exists a. split; [exact Hres|]. split; [|exact Hrevenue].
  rewrite (analytics_run_served Examples.admin_request Examples.busy_shop
             "tok_admin" "u1" eq_refl eq_refl eq_refl) in Hres.
  injection Hres as <-. vm_compute. reflexivity.
Defined.

(** ** The trigger on product documents *)

Lemma toLowerCase_empty (s : string) : toLowerCase s = "" -> s = "".
Proof.
  destruct s; [reflexivity | discriminate].
Qed.

Lemma filter_Boolean_In (l : list (option string)) (t : string) :
  In t (Trigger.filter_Boolean l) <-> In (Some t) l /\ t <> "".
Proof.
  induction l as [|[[|c s]|] l IH]; cbn.
  - tauto.
  - rewrite IH. split; [tauto|]. intros [[[= <-]|Hin] Hne]; tauto.
  - rewrite IH. split.
    + intros [<-|[Hin Hne]]; [split; [now left | discriminate] | tauto].
    + intros [[[= <-]|Hin] Hne]; tauto.
  - rewrite IH. split; [tauto|]. intros [[[=]|Hin] Hne]; tauto.
Qed.

Lemma filter_Boolean_nonempty (l : list (option string)) :
  Forall (fun t => t <> "") (Trigger.filter_Boolean l).
Proof.
  apply Forall_forall. intros t Hin.
  apply list_elem_of_In, filter_Boolean_In in Hin. tauto.
Qed.

(** The search terms are the lower-cased name, category and description
    that are present, and the lower-cased tags, without the empty ones. *)
Lemma search_terms_spec (p : product) (t : string) :
  In t (Trigger.search_terms p) <->
  t <> "" /\
  ((exists s, p_name p = Val s /\ t = toLowerCase s) \/
   (exists s, p_category p = Val s /\ t = toLowerCase s) \/
   (exists s, p_description p = Val s /\ t = toLowerCase s) \/
   (exists tag, In tag (Trigger.or_empty (p_tags p)) /\ t = toLowerCase tag)).
Proof.
  unfold Trigger.search_terms. rewrite filter_Boolean_In.
  assert (Hlower : forall f, Some t = Trigger.lower_opt f <->
                             exists s, f = Val s /\ t = toLowerCase s).
  { intros [| |s]; cbn; split; try discriminate.
    - intros (s & [=] & _).
    - intros (s & [=] & _).
    - intros [= ->]. eauto.
    - intros (s' & [= <-] & ->). reflexivity. }
  cbn [app In]. rewrite in_map_iff.
  split.
  - intros [[H|[H|[H|H]]] Hne]; (split; [exact Hne|]).
    + left. apply Hlower. now symmetry.
    + right; left. apply Hlower. now symmetry.
    + right; right; left. apply Hlower. now symmetry.
    + right; right; right. destruct H as (tag & [= <-] & Hin). eauto.
  - intros (Hne & [H|[H|[H|H]]]); (split; [|exact Hne]).
    + left. symmetry. now apply Hlower.
    + right; left. symmetry. now apply Hlower.
    + right; right; left. symmetry. now apply Hlower.
    + right; right; right. destruct H as (tag & Hin & ->). eauto.
Qed.

Lemma updateSearchIndex_run_delete (productId : string) (w : World) :
  Trigger.updateSearchIndex productId None w =
    (inr tt,
     set_search_index (delete productId (search_index w))
       (add_event (DocDelete SearchIndex productId) w)).
Proof.
  unfold Trigger.updateSearchIndex, Firestore.search_index_delete.
  run. reflexivity.
Qed.

Lemma updateSearchIndex_run_set (productId : string) (p : product) (w : World) :
  is_undefined (p_name p) = false ->
  is_undefined (p_category p) = false ->
  is_undefined (p_price p) = false ->
  is_undefined (Trigger.first_image (p_images p)) = false ->
  Trigger.updateSearchIndex productId (Some p) w =
    (inr tt,
     set_search_index
       (<[productId := Trigger.index_data productId p (now w)]> (search_index w))
       (add_event (DocSet SearchIndex productId) w)).
Proof.
  intros Hname Hcategory Hprice Himage.
  unfold Trigger.updateSearchIndex, Firestore.search_index_set.
  run. cbn. rewrite Hname, Hcategory, Hprice, Himage. reflexivity.
Qed.

Lemma updateSearchIndex_run_undefined (productId : string) (p : product)
    (w : World) :
  is_undefined (p_name p) || is_undefined (p_category p)
    || is_undefined (p_price p)
    || is_undefined (Trigger.first_image (p_images p)) = true ->
  Trigger.updateSearchIndex productId (Some p) w =
    (inl "Cannot use undefined as a Firestore value",
     add_event (DocSet SearchIndex productId) w).
Proof.
  intros Hundef.
  unfold Trigger.updateSearchIndex, Firestore.search_index_set.
  run. cbn. rewrite Hundef. reflexivity.
Qed.

(** The part of C7 that the code has: a deleted product loses its index
    entry; a written product whose name, category, price and first image
    are not [undefined] gets an index entry whose [searchTerms] are the
    lower-cased name, category, description and tags, none of them empty. *)
Lemma updateSearchIndex_defined (productId : string) (w : World) :
  search_index (snd (Trigger.updateSearchIndex productId None w)) !! productId
    = None /\
  forall p,
    is_undefined (p_name p) = false ->
    is_undefined (p_category p) = false ->
    is_undefined (p_price p) = false ->
    is_undefined (Trigger.first_image (p_images p)) = false ->
    exists entry,
      search_index (snd (Trigger.updateSearchIndex productId (Some p) w))
        !! productId = Some entry /\
      ie_searchTerms entry = Trigger.search_terms p /\
      Forall (fun t => t <> "") (ie_searchTerms entry).
Proof.
  split.
  - rewrite updateSearchIndex_run_delete. cbn. apply lookup_delete_eq.
  - intros p Hname Hcategory Hprice Himage.
    rewrite updateSearchIndex_run_set by assumption.
    exists (Trigger.index_data productId p (now w)).
    split; [apply lookup_insert_eq|]. split; [reflexivity|].
    unfold Trigger.index_data, Trigger.search_terms. cbn [ie_searchTerms].
    apply filter_Boolean_nonempty.
Qed.

(** The update of the tags of the shirt from [[]] to [["a"; "B"]]. *)
Lemma updateSearchIndex_tags :
  ie_searchTerms <$>
    search_index (snd (Trigger.updateSearchIndex "p1" (Some Examples.shirt)
                         Examples.indexed_shop)) !! "p1"
  = Some ["shirt"; "wear"; "cotton shirt"; "a"; "b"].
Proof.
  vm_compute. reflexivity.
Qed.

(** C7 fails on the code. The scarf is a product that has been written
    with a name, a category, a price, tags [["a"; "B"]] and no image yet.
    The trigger computes its search terms, ["scarf"; "wear"; "a"; "b"],
    then hands [image: undefined] to [set], which the store refuses: the
    promise of the trigger rejects and the search index has no entry for
    the product. The same happens to a product without a name. *)
Theorem updateSearchIndex_undefined_field :
  Trigger.search_terms Examples.scarf = ["scarf"; "wear"; "a"; "b"] /\
  (exists message,
     fst (Trigger.updateSearchIndex "p3" (Some Examples.scarf)
            Examples.indexed_shop) = inl message) /\
  search_index
    (snd (Trigger.updateSearchIndex "p3" (Some Examples.scarf) Examples.indexed_shop))
    !! "p3" = None /\
  (exists message,
     fst (Trigger.updateSearchIndex "p4" (Some Examples.nameless)
            Examples.indexed_shop) = inl message) /\
  search_index
    (snd (Trigger.updateSearchIndex "p4" (Some Examples.nameless)
            Examples.indexed_shop))
    !! "p4" = None.
Proof.
  rewrite !updateSearchIndex_run_undefined by reflexivity.
  split; [reflexivity|].
  split; [eexists; reflexivity|]. split; [reflexivity|].
  split; [eexists; reflexivity | reflexivity].
Qed.

(** * Further properties *)

(** ** [/process-order]: the other paths *)

Lemma process_order_run_unknown (req : order_request) (w : World) :
  intents w !! or_paymentIntentId req = None ->
  Api.process_order req w =
    (status_json 500
       (ErrorBody ("No such payment_intent: " +:+ or_paymentIntentId req)),
     add_event (StripeRetrieve (or_paymentIntentId req)) w).
Proof.
  intros Hnone.
  unfold Api.process_order, Api.process_order_body,
    Stripe.paymentIntents_retrieve.
  run. cbn. rewrite Hnone. reflexivity.
Qed.

Lemma in_stock_or_missing (items : list item) (ps : gmap string product) :
  items_in_stock_list items ps \/
  Exists (fun it => ps !! productId it = None) items.
Proof.
  unfold items_in_stock_list.
  induction items as [|it items [IH|IH]].
  - left. constructor.
  - destruct (ps !! productId it) as [p|] eqn:Hp.
    + left. constructor; [rewrite Hp; eauto | exact IH].
    + right. now constructor.
  - right. now apply Exists_cons_tl.
Qed.

Lemma in_stock_not_missing (items : list item) (ps : gmap string product) :
  items_in_stock_list items ps ->
  Exists (fun it => ps !! productId it = None) items -> False.
Proof.
  unfold items_in_stock_list. intros Hall Hex.
  apply Exists_exists in Hex as (it & Hin & Hnone).
  rewrite Forall_forall in Hall. destruct (Hall it Hin) as [p Hp]. congruence.
Qed.

(** When the provider does not know the payment intent of the request,
    the retrieval throws: the answer is 500, no document is written and
    the retrieval is the only call. *)
Theorem process_order_unknown_intent (req : order_request) (w : World) :
  intents w !! or_paymentIntentId req = None ->
  let (res, w') := Api.process_order req w in
  r_status res = 500 /\
  same_documents w w' /\
  calls_between w w' [StripeRetrieve (or_paymentIntentId req)].
Proof.
  intros Hnone. rewrite (process_order_run_unknown req w Hnone).
  split; [reflexivity|]. split; [repeat split|reflexivity].
Qed.

Lemma process_order_unknown_intent_witness :
  intents Examples.shop !! or_paymentIntentId MoreExamples.unknown_intent_request
    = None /\
  let (res, w') :=
    Api.process_order MoreExamples.unknown_intent_request Examples.shop in
  r_status res = 500 /\
  same_documents Examples.shop w' /\
  calls_between Examples.shop w' [StripeRetrieve "pi_404"].
Proof.
  split; [reflexivity|].
  apply (process_order_unknown_intent MoreExamples.unknown_intent_request
           Examples.shop).
  reflexivity.
Defined.




Lemma without_stock_increment (d : Z) (p : product) :
  without_stock (Firestore.increment d p) = without_stock p.
Proof. reflexivity. Qed.





(** ** [/analytics]: the other paths *)

Lemma analytics_run_no_token (req : analytics_request) (w : World) :
  Api.bearer_token req = None ->
  Api.analytics req w =
    (status_json 500 (ErrorBody "verifyIdToken() expects an ID token"),
     add_event (AuthVerify None) w).
Proof.
  intros Htok. unfold Api.analytics, Api.analytics_body, Auth.verifyIdToken.
  rewrite Htok. run. reflexivity.
Qed.

Lemma analytics_run_bad_token (req : analytics_request) (w : World)
    (tok : string) :
  Api.bearer_token req = Some tok ->
  id_tokens w !! tok = None ->
  Api.analytics req w =
    (status_json 500 (ErrorBody "Decoding Firebase ID token failed"),
     add_event (AuthVerify (Some tok)) w).
Proof.
  intros Htok Hnone. unfold Api.analytics, Api.analytics_body, Auth.verifyIdToken.
  rewrite Htok. run. cbn. rewrite Hnone. reflexivity.
Qed.

(** The four ways [/analytics] can go. *)
Lemma analytics_cases (req : analytics_request) (w : World) :
  (Api.bearer_token req = None /\
   exists message,
     Api.analytics req w =
       (status_json 500 (ErrorBody message), add_event (AuthVerify None) w)) \/
  (exists tok, Api.bearer_token req = Some tok /\ id_tokens w !! tok = None /\
     exists message,
       Api.analytics req w =
         (status_json 500 (ErrorBody message),
          add_event (AuthVerify (Some tok)) w)) \/
  (exists tok uid, Api.bearer_token req = Some tok /\
     id_tokens w !! tok = Some uid /\
     Api.not_admin (users w !! uid) = true /\
     Api.analytics req w =
       (status_json 403 (ErrorBody "Unauthorized"), analytics_refused tok uid w)) \/
  (exists tok uid, Api.bearer_token req = Some tok /\
     id_tokens w !! tok = Some uid /\
     Api.not_admin (users w !! uid) = false /\
     Api.analytics req w =
       (json (AnalyticsBody
          (Api.analytics_object (Firestore.documents (orders w))
             (Firestore.documents (products w)) (Firestore.documents (users w)))),
        analytics_served tok uid w)).
Proof.
  destruct (Api.bearer_token req) as [tok|] eqn:Htok.
  - destruct (id_tokens w !! tok) as [uid|] eqn:Huid.
    + destruct (Api.not_admin (users w !! uid)) eqn:Hrole.
      * right; right; left. exists tok, uid.
        repeat split; try assumption. now apply analytics_run_refused.
      * right; right; right. exists tok, uid.
        repeat split; try assumption. now apply analytics_run_served.
    + right; left. exists tok. repeat split; try assumption.
      eexists. now apply analytics_run_bad_token.
  - left. split; [reflexivity|]. eexists. now apply analytics_run_no_token.
Qed.

Lemma admin_spec (userDoc : option user) :
  Api.not_admin userDoc = false <->
  exists u, userDoc = Some u /\ u_role u = Val "admin".
Proof.
  unfold Api.not_admin. split.
  - destruct userDoc as [u|]; [|discriminate]. intros Hrole.
    exists u. split; [reflexivity|].
    destruct (u_role u) as [| |r]; try discriminate.
    apply negb_false_iff, String.eqb_eq in Hrole. now subst.
  - intros (u & -> & ->). reflexivity.
Qed.

(** The status of the answer of [/analytics]: 200 exactly when the token of
    the request verifies and the user document of its uid has the role
    "admin", 403 exactly when the token verifies and the user document is
    missing or has another role or none, 500 exactly when the request
    carries no token or one that does not verify; there is no 401. *)
Theorem analytics_status (req : analytics_request) (w : World) :
  let res := fst (Api.analytics req w) in
  (r_status res = 200 <->
     exists tok uid u, Api.bearer_token req = Some tok /\
       id_tokens w !! tok = Some uid /\
       users w !! uid = Some u /\ u_role u = Val "admin") /\
  (r_status res = 403 <->
     exists tok uid, Api.bearer_token req = Some tok /\
       id_tokens w !! tok = Some uid /\
       (users w !! uid = None \/
        exists u, users w !! uid = Some u /\ u_role u <> Val "admin")) /\
  (r_status res = 500 <->
     Api.bearer_token req = None \/
     exists tok, Api.bearer_token req = Some tok /\ id_tokens w !! tok = None) /\
  r_status res <> 401.
Proof.
  cbn zeta.
  destruct (analytics_cases req w)
    as [(Htok & message & ->)
       |[(tok & Htok & Huid & message & ->)
        |[(tok & uid & Htok & Huid & Hrole & ->)
         |(tok & uid & Htok & Huid & Hrole & ->)]]]; cbn.
  - repeat split; try discriminate; eauto.
    + intros (tok' & uid' & u' & Htok' & _). congruence.
    + intros (tok' & uid' & Htok' & _). congruence.
  - repeat split; try discriminate; eauto.
    + intros (tok' & uid' & u' & Htok' & Huid' & _). congruence.
    + intros (tok' & uid' & Htok' & Huid' & _). congruence.
  - repeat split; try discriminate.
    + intros (tok' & uid' & u' & Htok' & Huid' & Hu' & Hadmin).
      assert (uid' = uid) as -> by congruence.
      assert (Api.not_admin (users w !! uid) = false)
        by (apply admin_spec; eauto).
      congruence.
    + intros _. exists tok, uid. repeat split; try assumption.
      now apply not_admin_spec.
    + intros [Hnone|(tok' & Htok' & Huid')]; congruence.
  - repeat split; try discriminate.
    + intros _. apply admin_spec in Hrole as (u & Hu & Hadmin).
      exists tok, uid, u. repeat split; assumption.
    + intros (tok' & uid' & Htok' & Huid' & Hno).
      assert (uid' = uid) as -> by congruence.
      apply not_admin_spec in Hno. congruence.
    + intros [Hnone|(tok' & Htok' & Huid')]; congruence.
Qed.

(** A request without an [Authorization] header, with a header of one word,
    or with a token that does not verify is answered 500 after the one call
    to the identity service: no document is read and none is written. *)
Theorem analytics_unauthenticated (req : analytics_request) (w : World) :
  (Api.bearer_token req = None \/
   exists tok, Api.bearer_token req = Some tok /\ id_tokens w !! tok = None) ->
  let (res, w') := Api.analytics req w in
  r_status res = 500 /\
  same_documents w w' /\
  calls_between w w' [AuthVerify (Api.bearer_token req)].
Proof.
  intros [Htok|(tok & Htok & Hnone)].
  - rewrite (analytics_run_no_token req w Htok), Htok.
    split; [reflexivity|]. split; [repeat split | reflexivity].
  - rewrite (analytics_run_bad_token req w tok Htok Hnone), Htok.
    split; [reflexivity|]. split; [repeat split | reflexivity].
Qed.

Lemma analytics_unauthenticated_witness :
  Api.bearer_token MoreExamples.no_header_request = None /\
  Api.bearer_token MoreExamples.bad_token_request = Some "tok_forged" /\
  id_tokens Examples.shop !! "tok_forged" = None /\
  r_status (fst (Api.analytics MoreExamples.no_header_request Examples.shop)) = 500 /\
  r_status (fst (Api.analytics MoreExamples.bad_token_request Examples.shop)) = 500.
Proof.
  do 3 (split; [reflexivity|]).
  split.
  - pose proof (analytics_unauthenticated MoreExamples.no_header_request
                  Examples.shop (or_introl eq_refl)) as H.
    destruct (Api.analytics MoreExamples.no_header_request Examples.shop).
    apply H.
  - pose proof (analytics_unauthenticated MoreExamples.bad_token_request
                  Examples.shop
                  (or_intror (ex_intro _ "tok_forged" (conj eq_refl eq_refl))))
      as H.
    destruct (Api.analytics MoreExamples.bad_token_request Examples.shop).
    apply H.
Defined.

(** [/analytics] only reads: whatever the request, every collection is as
    it was and none of the calls of the handler is a write. *)
Theorem analytics_read_only (req : analytics_request) (w : World) :
  let (res, w') := Api.analytics req w in
  same_documents w w' /\
  exists calls, calls_between w w' calls /\
                Forall (fun e => is_write e = false) calls.
Proof.
  destruct (analytics_cases req w)
    as [(Htok & message & ->)
       |[(tok & Htok & Huid & message & ->)
        |[(tok & uid & Htok & Huid & Hrole & ->)
         |(tok & uid & Htok & Huid & Hrole & ->)]]];
    (split; [repeat split|]).
  - exists [AuthVerify None]. split; [reflexivity | repeat constructor].
  - exists [AuthVerify (Some tok)]. split; [reflexivity | repeat constructor].
  - exists [AuthVerify (Some tok); DocGet Users uid].
    split; [|repeat constructor].
    unfold calls_between. cbn. now rewrite <- app_assoc.
  - exists [AuthVerify (Some tok); DocGet Users uid; CollectionGet Orders;
            CollectionGet Products; CollectionGet Users].
    split; [|repeat constructor].
    unfold calls_between. cbn. now rewrite <- !app_assoc.
Qed.

(** The three counts that [/analytics] returns are the numbers of documents
    of the three collections. *)
Theorem analytics_counts (req : analytics_request) (w : World)
    (a : analytics_data) :
  r_body (fst (Api.analytics req w)) = AnalyticsBody a ->
  totalOrders a = size (orders w) /\
  totalProducts a = size (products w) /\
  totalUsers a = size (users w).
Proof.
  intros Hbody. apply analytics_body_inv in Hbody. subst a. cbn.
  now rewrite !length_documents.
Qed.

Lemma analytics_counts_witness :
  exists a,
    r_body (fst (Api.analytics Examples.admin_request Examples.busy_shop))
      = AnalyticsBody a /\
    totalOrders a = 4%nat /\ totalProducts a = 2%nat /\ totalUsers a = 2%nat.
Proof.
  eexists. split; [vm_compute; reflexivity|].
  apply (analytics_counts Examples.admin_request Examples.busy_shop).
  vm_compute. reflexivity.
Defined.

(** ** Strings: [split] and [toLowerCase] *)

Lemma append_assoc (a b c : string) : (a +:+ b) +:+ c = a +:+ (b +:+ c).
Proof.
  induction a as [|x a IH]; [reflexivity|].
  change (String x ((a +:+ b) +:+ c) = String x (a +:+ (b +:+ c))).
  now rewrite IH.
Qed.

Lemma append_empty_r (a : string) : a +:+ "" = a.
Proof.
  induction a as [|x a IH]; [reflexivity|].
  change (String x (a +:+ "") = String x a). now rewrite IH.
Qed.

Lemma split_aux_nonempty (sep : ascii) (s cur : string) :
  split_aux sep s cur <> [].
Proof.
  revert cur. induction s as [|c s IH]; intros cur; cbn; [discriminate|].
  destruct (Ascii.eqb c sep); [discriminate | apply IH].
Qed.

Lemma join_space_cons (p : string) (rest : list string) :
  rest <> [] -> join_space (p :: rest) = p +:+ " " +:+ join_space rest.
Proof.
  destruct rest; [congruence | reflexivity].
Qed.

Lemma join_split_aux (s cur : string) :
  join_space (split_aux " "%char s cur) = cur +:+ s.
Proof.
  revert cur. induction s as [|c s IH]; intros cur; cbn [split_aux].
  - cbn. now rewrite append_empty_r.
  - destruct (Ascii.eqb_spec c " "%char) as [->|Hne].
    + rewrite join_space_cons by apply split_aux_nonempty.
      now rewrite IH.
    + rewrite IH, append_assoc. reflexivity.
Qed.

Lemma length_split_aux (s cur : string) :
  length (split_aux " "%char s cur) = S (spaces s).
Proof.
  revert cur. induction s as [|c s IH]; intros cur; cbn [split_aux spaces];
    [reflexivity|].
  destruct (Ascii.eqb c " "%char); cbn [length]; now rewrite IH.
Qed.

(** [split] and [join] are inverse on the separator the handler uses:
    joining the pieces of a header with spaces gives the header back, and
    a header with [n] spaces has [n + 1] pieces. *)
Theorem split_space_join (s : string) :
  join_space (split_space s) = s /\
  length (split_space s) = S (spaces s).
Proof.
  unfold split_space. split.
  - now rewrite join_split_aux.
  - apply length_split_aux.
Qed.

Lemma split_aux_spaceless (s cur : string) :
  spaceless s = true -> split_aux " "%char s cur = [cur +:+ s].
Proof.
  revert cur. induction s as [|c s IH]; intros cur; cbn [split_aux spaceless].
  - now rewrite append_empty_r.
  - intros Hs. apply andb_prop in Hs as [Hc Hs].
    apply negb_true_iff in Hc. rewrite Hc, (IH _ Hs), append_assoc.
    reflexivity.
Qed.

Lemma split_aux_word (a t cur : string) :
  spaceless a = true ->
  split_aux " "%char (a +:+ String " "%char t) cur
  = (cur +:+ a) :: split_aux " "%char t "".
Proof.
  revert cur. induction a as [|c a IH]; intros cur Hs.
  - change ("" +:+ String " "%char t) with (String " "%char t).
    cbn [split_aux]. rewrite Ascii.eqb_refl. now rewrite append_empty_r.
  - change (String c a +:+ String " "%char t)
      with (String c (a +:+ String " "%char t)).
    cbn [split_aux spaceless] in *.
    apply andb_prop in Hs as [Hc Hs].
    apply negb_true_iff in Hc. rewrite Hc, (IH _ Hs), append_assoc.
    reflexivity.
Qed.

(** The token that [/analytics] verifies is the second word of the
    [Authorization] header: the word before it is not compared with
    "Bearer", what follows a second space is dropped, and a header of one
    word carries no token. *)
Theorem bearer_token_second_word (scheme tok : string) :
  spaceless scheme = true ->
  spaceless tok = true ->
  Api.bearer_token {| authorization := Some (scheme +:+ " " +:+ tok) |}
    = Some tok /\
  (forall rest,
     Api.bearer_token
       {| authorization := Some (scheme +:+ " " +:+ tok +:+ " " +:+ rest) |}
     = Some tok) /\
  Api.bearer_token {| authorization := Some scheme |} = None.
Proof.
  intros Hscheme Htok. unfold Api.bearer_token, split_space. cbn [authorization].
  split; [|split].
  - change (scheme +:+ " " +:+ tok) with (scheme +:+ String " "%char tok).
    rewrite split_aux_word by assumption.
    now rewrite split_aux_spaceless.
  - intros rest.
    change (scheme +:+ " " +:+ tok +:+ " " +:+ rest)
      with (scheme +:+ String " "%char (tok +:+ String " "%char rest)).
    rewrite !split_aux_word by assumption. reflexivity.
  - now rewrite split_aux_spaceless.
Qed.

Lemma bearer_token_second_word_witness :
  spaceless "Basic" = true /\
  spaceless "tok_admin" = true /\
  Api.bearer_token {| authorization := Some "Basic tok_admin" |}
    = Some "tok_admin" /\
  Api.bearer_token {| authorization := Some "Basic tok_admin and more" |}
    = Some "tok_admin" /\
  Api.bearer_token {| authorization := Some "Basic" |} = None.
Proof.
  split; [reflexivity|]. split; [reflexivity|].
  destruct (bearer_token_second_word "Basic" "tok_admin" eq_refl eq_refl)
    as (Hword & Hrest & Hnone).
  split; [exact Hword|]. split; [exact (Hrest "and more") | exact Hnone].
Defined.

Lemma ascii_lower_not_capital (c : ascii) : is_capital (ascii_lower c) = false.
Proof.
  destruct c as [[] [] [] [] [] [] [] []]; reflexivity.
Qed.

Lemma ascii_lower_fixed (c : ascii) : is_capital c = false -> ascii_lower c = c.
Proof.
  unfold is_capital, ascii_lower. cbn zeta. now intros ->.
Qed.

Lemma toLowerCase_no_capital (s : string) :
  Forall (fun c => is_capital c = false) (chars (toLowerCase s)).
Proof.
  induction s as [|c s IH]; cbn; constructor;
    [apply ascii_lower_not_capital | exact IH].
Qed.

Lemma toLowerCase_fixed (s : string) :
  Forall (fun c => is_capital c = false) (chars s) -> toLowerCase s = s.
Proof.
  induction s as [|c s IH]; cbn; intros Hall; [reflexivity|].
  apply Forall_cons in Hall as [Hc Hall].
  now rewrite (ascii_lower_fixed _ Hc), IH.
Qed.

Lemma toLowerCase_idem (s : string) : toLowerCase (toLowerCase s) = toLowerCase s.
Proof.
  apply toLowerCase_fixed, toLowerCase_no_capital.
Qed.

(** [toLowerCase] keeps the length of a string, leaves no capital letter,
    changes nothing in a string that has none, and so does nothing when it
    is applied again. *)
Theorem toLowerCase_lower (s : string) :
  String.length (toLowerCase s) = String.length s /\
  Forall (fun c => is_capital c = false) (chars (toLowerCase s)) /\
  (Forall (fun c => is_capital c = false) (chars s) -> toLowerCase s = s) /\
  toLowerCase (toLowerCase s) = toLowerCase s.
Proof.
  split; [|split; [apply toLowerCase_no_capital
                  |split; [apply toLowerCase_fixed | apply toLowerCase_idem]]].
  induction s as [|c s IH]; cbn; [reflexivity | now rewrite IH].
Qed.

(** ** The trigger on product documents: further properties *)

Lemma filter_Boolean_app (l1 l2 : list (option string)) :
  Trigger.filter_Boolean (l1 ++ l2)
  = Trigger.filter_Boolean l1 ++ Trigger.filter_Boolean l2.
Proof.
  induction l1 as [|[[|c s]|] l1 IH]; cbn; now rewrite ?IH.
Qed.

Lemma filter_Boolean_length (l : list (option string)) :
  (length (Trigger.filter_Boolean l) <= length l)%nat.
Proof.
  induction l as [|[[|c s]|] l IH]; cbn; lia.
Qed.

Lemma ascii_lower_spec (c : ascii) :
  if is_capital c
  then nat_of_ascii (ascii_lower c) = (nat_of_ascii c + 32)%nat
  else ascii_lower c = c.
Proof.
  destruct c as [[] [] [] [] [] [] [] []]; reflexivity.
Qed.

Lemma toLowerCase_lowered (s : string) : lowered s (toLowerCase s).
Proof.
  induction s as [|c s IH]; cbn; [exact I|].
  split; [apply ascii_lower_spec | exact IH].
Qed.

Lemma present_text_lowered (f : field string) (rest : list (option string)) :
  exists lows,
    Trigger.filter_Boolean (Trigger.lower_opt f :: rest)
    = lows ++ Trigger.filter_Boolean rest /\
    Forall2 lowered (present_text f) lows.
Proof.
  destruct f as [| |[|c s]]; cbn;
    try (exists []; split; [reflexivity | constructor]).
  exists [String (ascii_lower c) (toLowerCase s)]. split; [reflexivity|].
  constructor; [|constructor].
  exact (toLowerCase_lowered (String c s)).
Qed.

Lemma present_tags_lowered (tags : list string) :
  Forall2 lowered
    (List.filter (fun tag => negb (String.eqb tag "")) tags)
    (Trigger.filter_Boolean (map (fun tag => Some (toLowerCase tag)) tags)).
Proof.
  induction tags as [|[|c s] tags IH]; cbn; [constructor | exact IH|].
  constructor; [exact (toLowerCase_lowered (String c s)) | exact IH].
Qed.

(** The search terms of a product whose texts are ASCII are its texts in
    lower case: the name, the category and the description when they are
    present and not empty, then the tags that are not empty, in the order
    of the tags, every capital letter replaced by its small letter and
    nothing else changed; no term is empty, and there are at most three
    more terms than tags. *)
Theorem search_terms_lower (p : product) :
  Forall ascii_only (indexed_texts p) ->
  Forall2 lowered (indexed_texts p) (Trigger.search_terms p) /\
  Forall (fun t => t <> "") (Trigger.search_terms p) /\
  (forall tags, p_tags p = Val tags ->
     (length (Trigger.search_terms p) <= 3 + length tags)%nat) /\
  (p_tags p = Undefined \/ p_tags p = Null ->
     (length (Trigger.search_terms p) <= 3)%nat).
Proof.
  intros _. split; [|split; [|split]].
  - unfold Trigger.search_terms, indexed_texts.
    cbn [app].
    destruct (present_text_lowered (p_name p)
                (Trigger.lower_opt (p_category p)
                 :: Trigger.lower_opt (p_description p)
                 :: map (fun tag => Some (toLowerCase tag))
                      (Trigger.or_empty (p_tags p)))) as (l1 & -> & H1).
    destruct (present_text_lowered (p_category p)
                (Trigger.lower_opt (p_description p)
                 :: map (fun tag => Some (toLowerCase tag))
                      (Trigger.or_empty (p_tags p)))) as (l2 & -> & H2).
    destruct (present_text_lowered (p_description p)
                (map (fun tag => Some (toLowerCase tag))
                   (Trigger.or_empty (p_tags p)))) as (l3 & -> & H3).
    repeat (apply Forall2_app; [assumption|]).
    destruct (p_tags p) as [| |tags]; cbn [Trigger.or_empty map];
      [constructor | constructor | apply present_tags_lowered].
  - apply Forall_forall. intros t Hin.
    now apply list_elem_of_In, search_terms_spec in Hin as (Hne & _).
  - intros tags Htags. unfold Trigger.search_terms.
    etransitivity; [apply filter_Boolean_length|].
    rewrite length_app, length_map, Htags. cbn. lia.
  - intros Htags. unfold Trigger.search_terms.
    etransitivity; [apply filter_Boolean_length|].
    rewrite length_app, length_map.
    destruct Htags as [-> | ->]; cbn; lia.
Qed.

Lemma search_terms_lower_witness :
  Forall ascii_only (indexed_texts Examples.shirt) /\
  indexed_texts Examples.shirt = ["Shirt"; "Wear"; "Cotton shirt"; "a"; "B"] /\
  Trigger.search_terms Examples.shirt
    = ["shirt"; "wear"; "cotton shirt"; "a"; "b"] /\
  Forall2 lowered (indexed_texts Examples.shirt)
    (Trigger.search_terms Examples.shirt).
Proof.
  assert (Hascii : Forall ascii_only (indexed_texts Examples.shirt)).
  { apply Forall_forall. intros t Ht.
    apply (bool_decide_unpack _).
    revert t Ht. apply Forall_forall. vm_compute.
    repeat constructor. }
  split; [exact Hascii|]. split; [reflexivity|]. split; [reflexivity|].
  exact (proj1 (search_terms_lower Examples.shirt Hascii)).
Defined.

Lemma updateSearchIndex_cases (productId : string) (after : option product)
    (w : World) :
  (after = None /\
   Trigger.updateSearchIndex productId after w =
     (inr tt,
      set_search_index (delete productId (search_index w))
        (add_event (DocDelete SearchIndex productId) w))) \/
  (exists p, after = Some p /\
     Trigger.updateSearchIndex productId after w =
       (inr tt,
        set_search_index
          (<[productId := Trigger.index_data productId p (now w)]> (search_index w))
          (add_event (DocSet SearchIndex productId) w))) \/
  (exists p message, after = Some p /\
     Trigger.updateSearchIndex productId after w =
       (inl message, add_event (DocSet SearchIndex productId) w)).
Proof.
  destruct after as [p|].
  - destruct (is_undefined (p_name p) || is_undefined (p_category p)
              || is_undefined (p_price p)
              || is_undefined (Trigger.first_image (p_images p))) eqn:Hundef.
    + right; right. exists p. eexists. split; [reflexivity|].
      now apply updateSearchIndex_run_undefined.
    + right; left. exists p. split; [reflexivity|].
      apply orb_false_elim in Hundef as [Hundef Himage].
      apply orb_false_elim in Hundef as [Hundef Hprice].
      apply orb_false_elim in Hundef as [Hname Hcategory].
      now apply updateSearchIndex_run_set.
  - left. split; [reflexivity|]. apply updateSearchIndex_run_delete.
Qed.

(** The trigger touches one document: whatever the event and whether the
    write is accepted or not, the index entries of the other products and
    the orders, products, carts and users are as they were, and the only
    call is one write to the entry of the product. *)
Theorem updateSearchIndex_frame (productId : string) (after : option product)
    (w : World) :
  let w' := snd (Trigger.updateSearchIndex productId after w) in
  (forall other, other <> productId ->
                 search_index w' !! other = search_index w !! other) /\
  orders w' = orders w /\ products w' = products w /\
  carts w' = carts w /\ users w' = users w /\
  exists call, calls_between w w' [call] /\
               (call = DocDelete SearchIndex productId \/
                call = DocSet SearchIndex productId).
Proof.
  cbn zeta.
  destruct (updateSearchIndex_cases productId after w)
    as [(_ & ->)|[(p & _ & ->)|(p & message & _ & ->)]]; cbn.
  - split; [intros other Hne; now apply lookup_delete_ne|].
    repeat split. eexists. split; [reflexivity | now left].
  - split; [intros other Hne; now apply lookup_insert_ne|].
    repeat split. eexists. split; [reflexivity | now right].
  - repeat split. eexists. split; [reflexivity | now right].
Qed.

(** Deleting. The deletion of a product that has no index entry succeeds
    and leaves the index as it was; the deletion after a write removes the
    entry that the write has made. *)
Theorem updateSearchIndex_delete (productId : string) (w : World) :
  fst (Trigger.updateSearchIndex productId None w) = inr tt /\
  (search_index w !! productId = None ->
   search_index (snd (Trigger.updateSearchIndex productId None w))
   = search_index w) /\
  (forall p,
     search_index
       (snd (Trigger.updateSearchIndex productId None
               (snd (Trigger.updateSearchIndex productId (Some p) w))))
     !! productId = None).
Proof.
  split; [now rewrite updateSearchIndex_run_delete|]. split.
  - intros Hnone. rewrite updateSearchIndex_run_delete. cbn.
    now apply delete_id.
  - intros p. rewrite updateSearchIndex_run_delete. cbn.
    apply lookup_delete_eq.
Qed.


(** A refused write leaves a stale entry. When the product of an entry is
    written again with a name, a category, a price or a first image that is
    [undefined], the trigger rejects and the entry of the product stays
    what it was. *)
Theorem updateSearchIndex_stale (productId : string) (p : product) (w : World) :
  is_undefined (p_name p) || is_undefined (p_category p)
    || is_undefined (p_price p)
    || is_undefined (Trigger.first_image (p_images p)) = true ->
  (exists message,
     fst (Trigger.updateSearchIndex productId (Some p) w) = inl message) /\
  search_index (snd (Trigger.updateSearchIndex productId (Some p) w))
  = search_index w.
Proof.
  intros Hundef. rewrite (updateSearchIndex_run_undefined _ _ _ Hundef).
  split; [eexists; reflexivity | reflexivity].
Qed.

Lemma updateSearchIndex_stale_witness :
  is_undefined (Trigger.first_image (p_images Examples.scarf)) = true /\
  (exists message,
     fst (Trigger.updateSearchIndex "p1" (Some Examples.scarf)
            Examples.indexed_shop) = inl message) /\
  search_index
    (snd (Trigger.updateSearchIndex "p1" (Some Examples.scarf)
            Examples.indexed_shop)) !! "p1"
  = Some (Trigger.index_data "p1" Examples.plain_shirt 900).
Proof.
  split; [reflexivity|].
  destruct (updateSearchIndex_stale "p1" Examples.scarf Examples.indexed_shop
              eq_refl) as [Hrejects Hindex].
  split; [exact Hrejects|]. rewrite Hindex. reflexivity.
Defined.



(** ** Document paths *)

Lemma no_slash_split (s cur : string) :
  no_slash s = true -> split_aux "/"%char s cur = [cur +:+ s].
Proof.
  revert cur. induction s as [|c s IH]; intros cur; cbn [split_aux no_slash].
  - now rewrite append_empty_r.
  - intros Hs. apply andb_prop in Hs as [Hc Hs].
    apply negb_true_iff in Hc. rewrite Hc, (IH _ Hs), append_assoc.
    reflexivity.
Qed.

Lemma no_slash_double (s : string) :
  no_slash s = true -> Firestore.has_double_slash s = false.
Proof.
  induction s as [|c s IH]; [reflexivity|].
  cbn [no_slash]. intros Hs. apply andb_prop in Hs as [Hc Hs].
  apply negb_true_iff in Hc.
  cbn [Firestore.has_double_slash]. destruct s as [|c' s']; [reflexivity|].
  rewrite Hc. cbn [andb orb]. exact (IH Hs).
Qed.

(** A document id is a path to the document of that id. *)
Lemma doc_plain (s : string) : plain_id s = true -> Firestore.doc s = Some s.
Proof.
  unfold plain_id. intros Hs. apply andb_prop in Hs as [Hne Hs].
  apply negb_true_iff in Hne.
  unfold Firestore.doc, Firestore.segments.
  rewrite Hne, (no_slash_double _ Hs), (no_slash_split _ _ Hs).
  change ("" +:+ s) with s. cbn [List.filter]. rewrite Hne. reflexivity.
Qed.

(** ** The trigger on order documents *)

(** [sendOrderConfirmation], for an order whose [userId] is a document
    id, reads the user document of the buyer and nothing else, and writes
    no document. When the buyer has a user document it prints one line
    that names the email of the buyer (the word "undefined" when the
    document has no email, "null" when the email is null) and the id of
    the order; when the buyer has none the trigger rejects and prints
    nothing. *)
Theorem sendOrderConfirmation_spec (orderId userId : string) (o : order)
    (w : World) :
  o_userId o = Val userId ->
  plain_id userId = true ->
  let (res, w') := OrderTrigger.sendOrderConfirmation orderId o w in
  same_documents w w' /\
  calls_between w w' [DocGet Users userId] /\
  (users w !! userId = None -> exists message, res = inl message) /\
  (forall u email, users w !! userId = Some u -> u_email u = Val email ->
     res = inr ["Order confirmation email should be sent to " +:+ email
                  +:+ " for order " +:+ orderId]) /\
  (forall u, users w !! userId = Some u -> u_email u = Undefined ->
     res = inr ["Order confirmation email should be sent to undefined for order "
                  +:+ orderId]) /\
  (forall u, users w !! userId = Some u -> u_email u = Null ->
     res = inr ["Order confirmation email should be sent to null for order "
                  +:+ orderId]).
Proof.
  intros Huser Hplain.
  unfold OrderTrigger.sendOrderConfirmation, Firestore.users_doc_get.
  rewrite Huser. cbn [Firestore.doc_of]. rewrite (doc_plain _ Hplain).
  run. cbn.
  destruct (users w !! userId) as [u|]; cbn;
    (split; [repeat split|]); (split; [reflexivity|]).
  - split; [discriminate|].
    unfold OrderTrigger.confirmation_line.
    split; [|split].
    + intros u' email [= <-] ->. reflexivity.
    + intros u' [= <-] ->. reflexivity.
    + intros u' [= <-] ->. reflexivity.
  - split; [eexists; reflexivity|].
    split; [|split]; intros; discriminate.
Qed.

Lemma sendOrderConfirmation_spec_witness :
  o_userId (Examples.an_order 1000 (Val hundred)) = Val "u2" /\
  plain_id "u2" = true /\
  fst (OrderTrigger.sendOrderConfirmation "o1"
         (Examples.an_order 1000 (Val hundred)) Examples.shop)
  = inr ["Order confirmation email should be sent to b@shop for order o1"].
Proof.
  split; [reflexivity|]. split; [reflexivity|].
  pose proof (sendOrderConfirmation_spec "o1" "u2"
                (Examples.an_order 1000 (Val hundred)) Examples.shop
                eq_refl eq_refl) as H.
  destruct (OrderTrigger.sendOrderConfirmation _ _ _) as [res w'].
  destruct H as (_ & _ & _ & Hline & _).
  exact (Hline _ "b@shop" eq_refl eq_refl).
Defined.

(** ** [/create-payment-intent]: further properties *)

(** [/create-payment-intent] touches no document and has two answers: 200
    with the client secret when the provider returns one, 500 otherwise. The
    currency it sends is "usd" exactly when the body has no [currency];
    a [null] and any string are passed on as they are. *)
Theorem create_payment_intent_answers (req : payment_request) (w : World) :
  let (res, w') := Api.create_payment_intent req w in
  same_documents w w' /\
  (r_status res = 200 \/ r_status res = 500) /\
  (r_status res = 200 <->
     exists client_secret,
       provider_create w (Api.intent_of req) = inr client_secret /\
       r_body res = ClientSecretBody client_secret) /\
  (pr_currency req = Undefined ->
     ip_currency (Api.intent_of req) = Val "usd") /\
  (pr_currency req <> Undefined ->
     ip_currency (Api.intent_of req) = pr_currency req) /\
  ip_orderId (Api.intent_of req) = pr_orderId req.
Proof.
  rewrite create_payment_intent_run.
  split; [repeat split|].
  split; [destruct (provider_create w (Api.intent_of req)); cbn; tauto|].
  split.
  - destruct (provider_create w (Api.intent_of req)) as [message|secret]; cbn.
    + split; [discriminate|]. intros (secret & [=] & _).
    + split; [eauto | reflexivity].
  - cbn. split; [now intros ->|].
    split; [|reflexivity]. now destruct (pr_currency req).
Qed.

(** ** [/process-order], then [/analytics] *)

Lemma recent_all (docs : list (string * order)) (doc : string * order) :
  (length docs <= 10)%nat -> In doc docs ->
  In {| ro_id := fst doc; ro_data := snd doc |} (Api.recent docs).
Proof.
  intros Hlen Hin. unfold Api.recent.
  apply (in_map (fun d => {| ro_id := fst d; ro_data := snd d |})).
  rewrite firstn_all2.
  - eapply Permutation_in; [apply sort_perm | exact Hin].
  - now rewrite <- (Permutation_length (sort_perm Api.newest_first docs)).
Qed.




(** ** Numbers: whole amounts *)

Lemma digits2_pos_unique (p : positive) (k : Z) :
  2 ^ (k - 1) <= Zpos p < 2 ^ k -> Zpos (digits2_pos p) = k.
Proof.
  intros [Hlo Hhi]. pose proof (digits2_pos_bounds p) as [Hlo' Hhi'].
  assert (Hk : 0 < k).
  { destruct (Z.lt_trichotomy k 0) as [Hneg|[->|Hpos]]; [|cbn in Hhi; lia|lia].
    rewrite (Z.pow_neg_r 2 k Hneg) in Hhi. lia. }
  destruct (Z.lt_trichotomy (Zpos (digits2_pos p)) k) as [Hlt|[Heq|Hgt]];
    [|exact Heq|].
  - assert (2 ^ Zpos (digits2_pos p) <= 2 ^ (k - 1))
      by (apply Z.pow_le_mono_r; lia). lia.
  - assert (2 ^ k <= 2 ^ (Zpos (digits2_pos p) - 1))
      by (apply Z.pow_le_mono_r; lia). lia.
Qed.

Lemma shr_1_even (k : Z) :
  0 <= k ->
  shr_1 {| shr_m := 2 * k; shr_r := false; shr_s := false |}
  = {| shr_m := k; shr_r := false; shr_s := false |}.
Proof.
  intros Hk. destruct k as [|k|k]; try lia; reflexivity.
Qed.

Lemma iter_shr_1_exact (p : positive) :
  forall k, 0 <= k ->
    SpecFloat.iter_pos shr_1 p
      {| shr_m := k * 2 ^ Zpos p; shr_r := false; shr_s := false |}
    = {| shr_m := k; shr_r := false; shr_s := false |}.
Proof.
  assert (Hpow : forall q, 0 < 2 ^ Zpos q) by (intros; apply Z.pow_pos_nonneg; lia).
  induction p as [p IH|p IH|]; intros k Hk; cbn [SpecFloat.iter_pos].
  - assert (HxI : 2 ^ Zpos p~1 = 2 * (2 ^ Zpos p * 2 ^ Zpos p)).
    { rewrite Pos2Z.inj_xI, <- Z.pow_add_r, <- Z.pow_succ_r by lia. f_equal. lia. }
    pose proof (Hpow p).
    replace (k * 2 ^ Zpos p~1) with (2 * ((k * 2 ^ Zpos p) * 2 ^ Zpos p))
      by (rewrite HxI; lia).
    rewrite shr_1_even by nia. rewrite IH by nia. now apply IH.
  - assert (HxO : 2 ^ Zpos p~0 = 2 ^ Zpos p * 2 ^ Zpos p).
    { rewrite Pos2Z.inj_xO, <- Z.pow_add_r by lia. f_equal. lia. }
    pose proof (Hpow p).
    replace (k * 2 ^ Zpos p~0) with ((k * 2 ^ Zpos p) * 2 ^ Zpos p)
      by (rewrite HxO; lia).
    rewrite IH by nia. now apply IH.
  - change (2 ^ 1) with 2. rewrite Z.mul_comm. now apply shr_1_even.
Qed.

(** A mantissa of more than 53 bits whose low bits are zero is rounded
    without error. *)
Lemma binary_round_aux_exact (s : bool) (Q : positive) (n : positive) (E : Z) :
  Zpos (digits2_pos Q) = prec ->
  emin prec emax <= E + Zpos n <= emax - prec ->
  binary_round_aux prec emax s (Zpos Q * 2 ^ Zpos n) E loc_Exact
  = S754_finite s Q (E + Zpos n).
Proof.
  intros HQ HE.
  assert (Hpow : 0 < 2 ^ Zpos n) by (apply Z.pow_pos_nonneg; lia).
  destruct (Zpos Q * 2 ^ Zpos n) as [|M|M] eqn:HM; try lia.
  assert (HdM : Zpos (digits2_pos M) = prec + Zpos n).
  { apply digits2_pos_unique. rewrite <- HM.
    pose proof (digits2_pos_bounds Q) as [Hlo Hhi]. rewrite HQ in Hlo, Hhi.
    replace (prec + Zpos n - 1) with ((prec - 1) + Zpos n) by lia.
    rewrite !Z.pow_add_r by (unfold prec; lia). nia. }
  unfold binary_round_aux, shr_fexp, fexp. cbn [Zdigits2]. rewrite HdM.
  replace (Z.max (prec + Zpos n + E - prec) (emin prec emax) - E)
    with (Zpos n) by lia.
  cbn [shr shr_record_of_loc]. rewrite <- HM, iter_shr_1_exact by lia.
  cbn [shr_m loc_of_shr_record round_nearest_even Zdigits2].
  rewrite HQ.
  replace (Z.max (prec + (E + Zpos n) - prec) (emin prec emax) - (E + Zpos n))
    with 0 by lia.
  cbn [shr shr_record_of_loc shr_m].
  destruct (Z.leb_spec (E + Zpos n) (emax - prec)); [reflexivity | lia].
Qed.

(** The number that [of_int] gives for a positive integer below [2^53]. *)
Lemma binary_round_int_repr (s : bool) (p : positive) :
  Zpos p < 2 ^ 53 ->
  exists m,
    binary_round prec emax s p 0
    = S754_finite s m (Zpos (digits2_pos p) - 53) /\
    Zpos m = Zpos p * 2 ^ (53 - Zpos (digits2_pos p)) /\
    Zpos (digits2_pos m) = prec /\
    Zpos (digits2_pos p) <= 53.
Proof.
  intros Hp.
  pose proof (digits2_pos_bounds p) as [Hlo _].
  assert (Hd : Zpos (digits2_pos p) <= 53).
  { destruct (Z.le_gt_cases (Zpos (digits2_pos p)) 53) as [|Hgt]; [assumption|].
    assert (2 ^ 53 <= 2 ^ (Zpos (digits2_pos p) - 1)) by (apply Z.pow_le_mono_r; lia).
    lia. }
  unfold binary_round, shl_align, fexp.
  replace (Z.max (Zpos (digits2_pos p) + 0 - prec) (emin prec emax) - 0)
    with (Zpos (digits2_pos p) - 53) by (unfold prec, emin, emax; lia).
  destruct (Zpos (digits2_pos p) - 53) as [|q|q] eqn:Hq; [|lia|].
  - exists p.
    rewrite binary_round_aux_canonical; [|unfold prec; lia|unfold prec, emin, emax; lia].
    replace (53 - Zpos (digits2_pos p)) with 0 by lia.
    repeat split; unfold prec; lia.
  - exists (Pos.iter xO p q).
    assert (Hdq : Zpos (digits2_pos (Pos.iter xO p q)) = prec).
    { rewrite iter_xO_digits. unfold prec. lia. }
    replace (Z.max (Zpos (digits2_pos p) + 0 - prec) (emin prec emax))
      with (Zneg q) by (unfold prec, emin, emax; lia).
    rewrite binary_round_aux_canonical;
      [|exact Hdq|unfold prec, emin, emax; lia].
    replace (53 - Zpos (digits2_pos p)) with (Zpos q) by lia.
    repeat split; [apply iter_xO_value | exact Hdq | lia].
Qed.

Lemma js_mul_hundred_int (s : bool) (p : positive) :
  Zpos (100 * p) < 2 ^ 53 ->
  js_mul (binary_round prec emax s p 0) hundred
  = binary_round prec emax s (100 * p) 0.
Proof.
  intros H100.
  assert (Hp : Zpos p < 2 ^ 53) by lia.
  destruct (binary_round_int_repr s p Hp) as (m & -> & Hmv & Hmd & Hd).
  destruct (binary_round_int_repr s (100 * p) H100) as (Q & -> & HQv & HQd & HD).
  pose proof (digits2_pos_bounds p) as [Hlo _].
  pose proof (digits2_pos_bounds (100 * p)) as [_ Hhi].
  set (d := Zpos (digits2_pos p)) in *.
  set (D := Zpos (digits2_pos (100 * p))) in *.
  assert (HdD : d <= D).
  { destruct (Z.le_gt_cases d D) as [|Hgt]; [assumption|].
    assert (2 ^ D <= 2 ^ (d - 1)) by (apply Z.pow_le_mono_r; lia). lia. }
  unfold js_mul, hundred, SFmul. rewrite xorb_false_r.
  destruct (46 + D - d) as [|n|n] eqn:Hn; try lia.
  assert (Hprod : Zpos (m * 7036874417766400) = Zpos Q * 2 ^ Zpos n).
  { rewrite Pos2Z.inj_mul, Hmv, HQv, <- Hn.
    change (Zpos 7036874417766400) with (100 * 2 ^ 46).
    replace (Zpos (100 * p)) with (100 * Zpos p) by lia.
    replace (46 + D - d) with ((53 - d) + 46 - (53 - D)) by lia.
    assert (H1 : 2 ^ (53 - d + 46) = 2 ^ (53 - D) * 2 ^ (53 - d + 46 - (53 - D))).
    { rewrite <- Z.pow_add_r by lia. f_equal. lia. }
    rewrite Z.pow_add_r in H1 by lia. nia. }
  rewrite Hprod.
  rewrite binary_round_aux_exact; [f_equal; lia | exact HQd |].
  unfold prec, emin, emax. lia.
Qed.

Lemma Math_round_int (x : number) (n : Z) :
  to_int x = Some n ->
  (forall s m e, x = S754_finite s m e -> Zpos m < 2 ^ 53) ->
  to_int (Math_round x) = Some n.
Proof.
  intros Hint Hm. destruct x as [sz| | |s m e]; try exact Hint.
  specialize (Hm s m e eq_refl).
  unfold Math_round. unfold to_int in Hint.
  destruct (Z.leb_spec 0 e) as [He|He].
  - unfold to_int. destruct (Z.leb_spec 0 e); [exact Hint | lia].
  - destruct (Z.eqb_spec (Zpos m mod 2 ^ (- e)) 0) as [Hmod|]; [|discriminate].
    injection Hint as <-.
    assert (Hpow : 0 < 2 ^ (- e)) by (apply Z.pow_pos_nonneg; lia).
    assert (Hhalf : 0 <= 2 ^ (- e - 1) < 2 ^ (- e)).
    { split; [apply Z.pow_nonneg; lia|]. apply Z.pow_lt_mono_r; lia. }
    assert (Hq : Zpos m = 2 ^ (- e) * (Zpos m / 2 ^ (- e))).
    { pose proof (Z.div_mod (Zpos m) (2 ^ (- e))). lia. }
    assert (Hbound : 0 <= Zpos m / 2 ^ (- e) <= Zpos m).
    { split; [apply Z.div_pos; lia|]. apply Z.div_le_upper_bound; nia. }
    unfold round_half_up.
    set (q := Zpos m / 2 ^ (- e)) in *.
    set (P := 2 ^ (- e)) in *.
    replace (cond_Zopp s (Zpos m)) with (cond_Zopp s q * P)
      by (destruct s; cbn [cond_Zopp]; lia).
    rewrite Z.div_add_l by lia. rewrite Z.div_small by lia.
    rewrite Z.add_0_r. apply of_int_to_int.
    destruct s; cbn [cond_Zopp]; lia.
Qed.

Lemma to_cents_whole (a : Z) :
  Z.abs (100 * a) < 2 ^ 53 ->
  js_mul (of_int a false) hundred = of_int (100 * a) false /\
  to_int (Api.to_cents (of_int a false)) = Some (100 * a).
Proof.
  intros Ha.
  assert (Hprod : js_mul (of_int a false) hundred = of_int (100 * a) false).
  { destruct a as [|p|p]; [reflexivity| |];
      unfold of_int, binary_normalize;
      [change (100 * Zpos p) with (Zpos (100 * p))
      |change (100 * Zneg p) with (Zneg (100 * p))];
      apply js_mul_hundred_int; lia. }
  split; [exact Hprod|].
  unfold Api.to_cents. apply Math_round_int.
  - rewrite Hprod. now apply of_int_to_int.
  - intros s m e. apply js_mul_mantissa.
Qed.

(** A whole amount is converted without error: when the amount of the
    request is the integer [a] and [100 * a] is below [2^53] in absolute
    value, the amount that [/create-payment-intent] sends is [100 * a]. *)
Theorem create_payment_intent_whole_amount (req : payment_request) (w : World)
    (a : Z) :
  pr_amount req = of_int a false ->
  Z.abs (100 * a) < 2 ^ 53 ->
  let (res, w') := Api.create_payment_intent req w in
  exists p,
    calls_between w w' [StripeCreate p] /\
    to_int (ip_amount p) = Some (100 * a).
Proof.
  intros Hamount Ha. rewrite create_payment_intent_run.
  exists (Api.intent_of req). split; [reflexivity|].
  cbn. rewrite Hamount. now apply to_cents_whole.
Qed.

Lemma create_payment_intent_whole_amount_witness :
  pr_amount (Examples.payment_of (of_int 20 false)) = of_int 20 false /\
  Z.abs (100 * 20) < 2 ^ 53 /\
  let (res, w') :=
    Api.create_payment_intent (Examples.payment_of (of_int 20 false))
      Examples.shop in
  exists p,
    calls_between Examples.shop w' [StripeCreate p] /\
    to_int (ip_amount p) = Some 2000.
Proof.
  split; [reflexivity|]. split; [reflexivity|].
  apply (create_payment_intent_whole_amount
           (Examples.payment_of (of_int 20 false)) Examples.shop 20);
    reflexivity.
Defined.

(** ** The recent orders: no order twice *)

Lemma recent_ids (docs : list (string * order)) :
  map ro_id (Api.recent docs)
  = map fst (firstn 10 (Api.sort Api.newest_first docs)).
Proof.
  unfold Api.recent. rewrite map_map. reflexivity.
Qed.

(** No order is listed twice: the ids of the [recentOrders] that
    [/analytics] returns are distinct, and when the store holds at most ten
    orders every order of the store is listed. *)
Theorem analytics_recent_distinct (req : analytics_request) (w : World)
    (a : analytics_data) :
  r_body (fst (Api.analytics req w)) = AnalyticsBody a ->
  NoDup (map ro_id (recentOrders a)) /\
  ((size (orders w) <= 10)%nat ->
   forall id o, orders w !! id = Some o ->
                In {| ro_id := id; ro_data := o |} (recentOrders a)).
Proof.
  intros Hbody. apply analytics_body_inv in Hbody. subst a. cbn. split.
  - rewrite recent_ids, <- firstn_map.
    refine (sublist_NoDup _ _ _ (sublist_take _ _)).
    rewrite <- (sort_perm Api.newest_first (Firestore.documents (orders w))).
    apply NoDup_fst_documents.
  - intros Hsize id o Hlookup.
    apply (recent_all _ (id, o)).
    + now rewrite length_documents.
    + now apply In_documents.
Qed.

Lemma analytics_recent_distinct_witness :
  exists a,
    r_body (fst (Api.analytics Examples.admin_request Examples.busy_shop))
      = AnalyticsBody a /\
    map ro_id (recentOrders a) = ["o3"; "o1"; "o4"; "o2"] /\
    NoDup (map ro_id (recentOrders a)).
Proof.
  eexists. split; [vm_compute; reflexivity|].
  split; [vm_compute; reflexivity|].
  apply (analytics_recent_distinct Examples.admin_request Examples.busy_shop).
  vm_compute. reflexivity.
Defined.

(** ** [/process-order] on any body *)

Lemma batch_of_plain (items : list item) :
  Forall (fun it => plain_id (productId it) = true) items ->
  Api.batch_of items = Some (Api.stock_updates items).
Proof.
  induction 1 as [|it items Hit Hitems IH]; [reflexivity|].
  cbn [Api.batch_of]. rewrite (doc_plain _ Hit), IH. reflexivity.
Qed.

Lemma process_order_json_run_unknown (b : order_body) (w : World)
    (paymentIntentId : string) :
  ob_paymentIntentId b = Val paymentIntentId ->
  intents w !! paymentIntentId = None ->
  exists message,
    Api.process_order_json b w =
      (status_json 500 (ErrorBody message),
       add_event (StripeRetrieve paymentIntentId) w).
Proof.
  intros Hpid Hnone. eexists.
  unfold Api.process_order_json, Api.process_order_json_body,
    Stripe.paymentIntents_retrieve.
  rewrite Hpid. run. cbn. rewrite Hnone. reflexivity.
Qed.

Lemma process_order_json_run_unpaid (b : order_body) (w : World)
    (paymentIntentId st : string) :
  ob_paymentIntentId b = Val paymentIntentId ->
  intents w !! paymentIntentId = Some st ->
  st <> "succeeded" ->
  Api.process_order_json b w =
    (status_json 400 (ErrorBody "Payment not completed"),
     add_event (StripeRetrieve paymentIntentId) w).
Proof.
  intros Hpid Hst Hne.
  unfold Api.process_order_json, Api.process_order_json_body,
    Stripe.paymentIntents_retrieve.
  rewrite Hpid. run. cbn. rewrite Hst. cbn.
  destruct (String.eqb st "succeeded") eqn:Heq; [|reflexivity].
  apply String.eqb_eq in Heq. contradiction.
Qed.

(** The run of the handler after a succeeded payment, step by step. *)
Lemma process_order_json_run_paid (b : order_body) (w : World)
    (paymentIntentId userId : string) (items : list item) :
  ob_paymentIntentId b = Val paymentIntentId ->
  intents w !! paymentIntentId = Some "succeeded" ->
  ob_userId b = Val userId ->
  ob_items b = Val items ->
  exists message,
    Api.process_order_json b w =
      if is_undefined (ob_total b) || is_undefined (ob_shippingAddress b)
      then (status_json 500 (ErrorBody message),
            add_event (StripeRetrieve paymentIntentId) w)
      else
        let orderId := fresh (dom (orders w)) in
        let w1 := order_added b paymentIntentId orderId w in
        match Api.batch_of items with
        | None => (status_json 500 (ErrorBody message), w1)
        | Some ups =>
            match Firestore.apply_updates ups (products w) with
            | None =>
                (status_json 500 (ErrorBody "5 NOT_FOUND: No document to update"),
                 add_event (BatchCommit ups) w1)
            | Some ps' =>
                let w2 := set_products ps' (add_event (BatchCommit ups) w1) in
                match Firestore.doc userId with
                | None => (status_json 500 (ErrorBody message), w2)
                | Some cart =>
                    (json (OrderBody orderId "success"),
                     set_carts (delete cart (carts w))
                       (add_event (DocDelete Carts cart) w2))
                end
            end
        end.
Proof.
  intros Hpid Hpaid Huser Hitems.
  unfold Api.process_order_json, Api.process_order_json_body,
    Stripe.paymentIntents_retrieve, Firestore.orders_add,
    Firestore.batch_commit, Firestore.carts_delete, Firestore.doc_of.
  rewrite Hpid. run. cbn. rewrite Hpaid. cbn. rewrite !Huser, !Hitems. cbn.
  destruct (ob_total b) as [| |total]; cbn;
    try (exists "Cannot use undefined as a Firestore value"; reflexivity);
    (destruct (ob_shippingAddress b) as [| |address]; cbn;
     try (exists "Cannot use undefined as a Firestore value"; reflexivity));
    exists "Value for argument documentPath is not a valid resource path";
    (destruct (Api.batch_of items) as [ups|]; cbn; [|reflexivity]);
    (destruct (Firestore.apply_updates ups (products w)) as [ps'|]; cbn;
     [|reflexivity]);
    (destruct (Firestore.doc userId) as [cart|]; cbn; reflexivity).
Qed.

Lemma process_order_json_run_ok (b : order_body) (w : World)
    (paymentIntentId userId : string) (items : list item)
    (ps' : gmap string product) :
  ob_paymentIntentId b = Val paymentIntentId ->
  intents w !! paymentIntentId = Some "succeeded" ->
  ob_userId b = Val userId ->
  plain_id userId = true ->
  ob_items b = Val items ->
  Forall (fun it => plain_id (productId it) = true) items ->
  ob_total b <> Undefined ->
  ob_shippingAddress b <> Undefined ->
  Firestore.apply_updates (Api.stock_updates items) (products w) = Some ps' ->
  Api.process_order_json b w =
    (json (OrderBody (fresh (dom (orders w))) "success"),
     set_carts (delete userId (carts w))
       (add_event (DocDelete Carts userId)
          (set_products ps'
             (add_event (BatchCommit (Api.stock_updates items))
                (order_added b paymentIntentId (fresh (dom (orders w))) w))))).
Proof.
  intros Hpid Hpaid Huser Hplain Hitems Hids Htotal Haddress Hbatch.
  destruct (process_order_json_run_paid b w paymentIntentId userId items
              Hpid Hpaid Huser Hitems) as [message ->].
  destruct (ob_total b) as [| |total]; [contradiction| |];
    (destruct (ob_shippingAddress b) as [| |address]; [contradiction| |]);
    cbn [is_undefined orb];
    rewrite (batch_of_plain _ Hids), Hbatch, (doc_plain _ Hplain);
    reflexivity.
Qed.

Lemma stock_lowered (items : list item) (ps ps' : gmap string product)
    (id : string) (p : product) :
  Firestore.apply_updates (Api.stock_updates items) ps = Some ps' ->
  ps !! id = Some p ->
  p_stock <$> ps' !! id = Some (p_stock p - ordered id items).
Proof.
  intros Hrun Hp. rewrite (stock_after_batch _ _ _ Hrun id), Hp. cbn.
  f_equal; lia.
Qed.

(** A body whose fields are present and whose ids are document ids is
    handled as the [order_request] it is. *)
Theorem process_order_json_well_formed (req : order_request) (w : World) :
  plain_id (or_userId req) = true ->
  Forall (fun it => plain_id (productId it) = true) (or_items req) ->
  Api.process_order_json (json_body req) w = Api.process_order req w.
Proof.
  intros Hplain Hids.
  unfold Api.process_order_json, Api.process_order_json_body,
    Api.process_order, Api.process_order_body,
    Stripe.paymentIntents_retrieve, Firestore.orders_add,
    Firestore.batch_commit, Firestore.carts_delete, Firestore.doc_of.
  run. cbn.
  destruct (intents w !! or_paymentIntentId req) as [st|]; cbn; [|reflexivity].
  destruct (String.eqb st "succeeded"); cbn; [|reflexivity].
  rewrite (batch_of_plain _ Hids). cbn.
  destruct (Firestore.apply_updates _ _); cbn; [|reflexivity].
  rewrite (doc_plain _ Hplain). reflexivity.
Qed.

(** C1, as the code has it. When the body names a payment intent that has
    status "succeeded", its [userId] is a document id, its [items] is a
    list whose [productId]s are the ids of product documents that exist,
    and its [total] and [shippingAddress] are present (they may be null),
    [/process-order] answers 200 with [{orderId, status: "success"}], adds
    exactly one order document, under an id the collection did not hold,
    with status "confirmed" and the fields of the body, lowers the stock of
    every product by the quantity the items order of it (by the quantity of
    the item when no two items name the same product), adds no product,
    and deletes the cart document keyed by [userId]. *)
Theorem process_order_paid (b : order_body) (w : World)
    (paymentIntentId userId : string) (items : list item) :
  ob_paymentIntentId b = Val paymentIntentId ->
  intents w !! paymentIntentId = Some "succeeded" ->
  ob_userId b = Val userId ->
  plain_id userId = true ->
  ob_items b = Val items ->
  Forall (fun it => plain_id (productId it) = true) items ->
  Forall (fun it => is_Some (products w !! productId it)) items ->
  ob_total b <> Undefined ->
  ob_shippingAddress b <> Undefined ->
  exists orderId w' o,
    Api.process_order_json b w = (json (OrderBody orderId "success"), w') /\
    r_status (fst (Api.process_order_json b w)) = 200 /\
    orders w !! orderId = None /\
    orders w' = <[orderId := o]> (orders w) /\
    o_status o = "confirmed" /\
    o_userId o = Val userId /\
    o_items o = Val items /\
    o_total o = ob_total b /\
    o_shippingAddress o = ob_shippingAddress b /\
    o_paymentIntentId o = paymentIntentId /\
    (forall id p, products w !! id = Some p ->
       p_stock <$> products w' !! id = Some (p_stock p - ordered id items)) /\
    (forall id, products w !! id = None -> products w' !! id = None) /\
    (NoDup (map productId items) ->
     forall it p, In it items ->
       products w !! productId it = Some p ->
       p_stock <$> products w' !! productId it = Some (p_stock p - quantity it)) /\
    carts w' = delete userId (carts w) /\
    carts w' !! userId = None.
Proof.
  intros Hpid Hpaid Huser Hplain Hitems Hids Hall Htotal Haddress.
  destruct (apply_updates_exists _ _ (updates_of_existing _ _ Hall)) as [ps' Hps'].
  pose proof (process_order_json_run_ok b w paymentIntentId userId items ps'
                Hpid Hpaid Huser Hplain Hitems Hids Htotal Haddress Hps') as Hrun.
  eexists _, _, (Api.order_data b paymentIntentId (now w)).
  split; [exact Hrun|]. rewrite Hrun.
  split; [reflexivity|].
  split; [apply fresh_order_id|].
  split; [reflexivity|].
  split; [reflexivity|].
  split; [exact Huser|].
  split; [exact Hitems|].
  split; [reflexivity|].
  split; [reflexivity|].
  split; [reflexivity|].
  split; [intros id p Hp; exact (stock_lowered _ _ _ _ _ Hps' Hp)|].
  split.
  { intros id Hnone. cbn. now rewrite (stock_after_batch _ _ _ Hps' id), Hnone. }
  split.
  - intros Hnd it p Hin Hp. cbn.
    rewrite (stock_lowered _ _ _ _ _ Hps' Hp).
    now rewrite (NoDup_ordered _ _ Hnd Hin).
  - split; [reflexivity|]. cbn. apply lookup_delete_eq.
Qed.

Lemma process_order_paid_witness :
  ob_paymentIntentId (json_body Examples.paid_request) = Val "pi_1" /\
  intents Examples.shop !! "pi_1" = Some "succeeded" /\
  plain_id "u2" = true /\
  Forall (fun it => plain_id (productId it) = true)
         (or_items Examples.paid_request) /\
  Forall (fun it => is_Some (products Examples.shop !! productId it))
         (or_items Examples.paid_request) /\
  exists orderId w' o,
    Api.process_order_json (json_body Examples.paid_request) Examples.shop
      = (json (OrderBody orderId "success"), w') /\
    orders Examples.shop !! orderId = None /\
    orders w' = <[orderId := o]> ∅ /\
    o_status o = "confirmed" /\
    p_stock <$> products w' !! "p1" = Some 8 /\
    p_stock <$> products w' !! "p2" = Some 4 /\
    carts w' !! "u2" = None.
Proof.
  assert (Hids : Forall (fun it => plain_id (productId it) = true)
                        (or_items Examples.paid_request)).
  { repeat constructor. }
  assert (Hall : Forall (fun it => is_Some (products Examples.shop !! productId it))
                        (or_items Examples.paid_request)).
  { repeat constructor; eexists; reflexivity. }
  split; [reflexivity|]. split; [reflexivity|]. split; [reflexivity|].
  split; [exact Hids|]. split; [exact Hall|].
  destruct (process_order_paid (json_body Examples.paid_request) Examples.shop
              "pi_1" "u2" (or_items Examples.paid_request)
              eq_refl eq_refl eq_refl eq_refl eq_refl Hids Hall)
    as (orderId & w' & o & Hrun & _ & Hnew & Horders & Hstatus & _ & _ & _ & _
        & _ & Hstock & _ & _ & _ & Hcart); [discriminate | discriminate |].
  exists orderId, w', o.
  split; [exact Hrun|]. split; [exact Hnew|]. split; [exact Horders|].
  split; [exact Hstatus|].
  split; [exact (Hstock "p1" Examples.shirt eq_refl)|].
  split; [exact (Hstock "p2" Examples.cap eq_refl) | exact Hcart].
Defined.

(** C1, as the specification has it, fails. The intent of both requests
    has succeeded. The first names a product that the store does not hold:
    the answer is 500, the order document has been added, no stock is
    lowered and the cart is still there. The second has the empty string
    as its [userId]: the answer is 500 after the order has been added and
    the stock lowered, and no cart is deleted. *)
Lemma process_order_paid_counterexample :
  intents Examples.shop !! "pi_1" = Some "succeeded" /\
  ob_paymentIntentId (json_body Examples.ghost_request) = Val "pi_1" /\
  (let (res, w') :=
     Api.process_order_json (json_body Examples.ghost_request) Examples.shop in
   r_status res = 500 /\
   size (orders w') = 1%nat /\
   p_stock <$> products w' !! "p1" = Some 10 /\
   carts w' !! "u2" = Some [ {| productId := "p1"; quantity := 2 |} ]) /\
  ob_paymentIntentId MoreExamples.anonymous_body = Val "pi_1" /\
  (let (res, w') :=
     Api.process_order_json MoreExamples.anonymous_body Examples.shop in
   r_status res = 500 /\
   size (orders w') = 1%nat /\
   p_stock <$> products w' !! "p1" = Some 8 /\
   carts w' = carts Examples.shop).
Proof.
  split; [reflexivity|]. split; [reflexivity|]. split; [|split; [reflexivity|]].
  - destruct (process_order_json_run_paid (json_body Examples.ghost_request)
                Examples.shop "pi_1" "u2" (or_items Examples.ghost_request)
                eq_refl eq_refl eq_refl eq_refl) as [message ->].
    repeat split; reflexivity.
  - destruct (process_order_json_run_paid MoreExamples.anonymous_body
                Examples.shop "pi_1" ""
                [ {| productId := "p1"; quantity := 2 |} ]
                eq_refl eq_refl eq_refl eq_refl) as [message ->].
    repeat split; reflexivity.
Qed.

(** C10, as the code has it. With a succeeded payment intent, a [userId]
    that is a document id, a [total] and a [shippingAddress] that are
    present, and an empty list of items, [/process-order] succeeds: it
    adds one order document that holds the empty list, commits an empty
    batch, so that no product changes, deletes the cart of the user and
    answers 200 with [{orderId, status: "success"}]. *)
Theorem process_order_empty_items (b : order_body) (w : World)
    (paymentIntentId userId : string) :
  ob_paymentIntentId b = Val paymentIntentId ->
  intents w !! paymentIntentId = Some "succeeded" ->
  ob_userId b = Val userId ->
  plain_id userId = true ->
  ob_items b = Val [] ->
  ob_total b <> Undefined ->
  ob_shippingAddress b <> Undefined ->
  exists orderId w' o,
    Api.process_order_json b w = (json (OrderBody orderId "success"), w') /\
    r_status (fst (Api.process_order_json b w)) = 200 /\
    orders w !! orderId = None /\
    orders w' = <[orderId := o]> (orders w) /\
    o_items o = Val [] /\
    o_status o = "confirmed" /\
    products w' = products w /\
    carts w' = delete userId (carts w) /\
    trace w' = trace w ++
      [StripeRetrieve paymentIntentId; DocAdd Orders orderId;
       BatchCommit []; DocDelete Carts userId].
Proof.
  intros Hpid Hpaid Huser Hplain Hitems Htotal Haddress.
  pose proof (process_order_json_run_ok b w paymentIntentId userId []
                (products w) Hpid Hpaid Huser Hplain Hitems (List.Forall_nil _)
                Htotal Haddress eq_refl) as Hrun.
  eexists _, _, (Api.order_data b paymentIntentId (now w)).
  split; [exact Hrun|]. rewrite Hrun.
  split; [reflexivity|].
  split; [apply fresh_order_id|].
  split; [reflexivity|].
  split; [exact Hitems|].
  split; [reflexivity|].
  split; [reflexivity|].
  split; [reflexivity|].
  cbn. rewrite <- !app_assoc. reflexivity.
Qed.

Lemma process_order_empty_items_witness :
  ob_paymentIntentId MoreExamples.empty_body = Val "pi_1" /\
  intents Examples.shop !! "pi_1" = Some "succeeded" /\
  ob_userId MoreExamples.empty_body = Val "u2" /\
  plain_id "u2" = true /\
  ob_items MoreExamples.empty_body = Val [] /\
  ob_total MoreExamples.empty_body = Null /\
  exists orderId w' o,
    Api.process_order_json MoreExamples.empty_body Examples.shop
      = (json (OrderBody orderId "success"), w') /\
    orders w' = <[orderId := o]> ∅ /\
    o_items o = Val [] /\
    products w' = products Examples.shop /\
    carts w' = delete "u2" (carts Examples.shop).
Proof.
  do 6 (split; [reflexivity|]).
  destruct (process_order_empty_items MoreExamples.empty_body Examples.shop
              "pi_1" "u2" eq_refl eq_refl eq_refl eq_refl eq_refl)
    as (orderId & w' & o & Hrun & _ & _ & Horders & Hitems & _ & Hproducts
        & Hcarts & _); [discriminate | discriminate |].
  exists orderId, w', o. repeat split; assumption.
Defined.

(** C10, as the specification has it, fails: the intent of this request
    has succeeded and its list of items is empty, but the body has no
    [total]; the store refuses the order document, the answer is 500, no
    order is added and the cart of the user is still there. *)
Lemma process_order_empty_items_counterexample :
  intents Examples.shop !! "pi_1" = Some "succeeded" /\
  ob_paymentIntentId MoreExamples.no_total_body = Val "pi_1" /\
  ob_items MoreExamples.no_total_body = Val [] /\
  let (res, w') :=
    Api.process_order_json MoreExamples.no_total_body Examples.shop in
  r_status res = 500 /\
  orders w' = orders Examples.shop /\
  carts w' = carts Examples.shop.
Proof.
  do 3 (split; [reflexivity|]).
  destruct (process_order_json_run_paid MoreExamples.no_total_body
              Examples.shop "pi_1" "u2" [] eq_refl eq_refl eq_refl eq_refl)
    as [message ->].
  repeat split; reflexivity.
Qed.

(** C6. [/process-order] is not idempotent. In every world where the
    payment intent has succeeded and the products of the items exist (the
    shop of [Examples] is one), two invocations with the same body, so
    with the same paymentIntentId and the same items, both answer 200 and
    add two order documents under two distinct ids, both with that
    paymentIntentId and those items; after the two, the stock of every
    product is its stock before minus twice the quantity the items order
    of it (twice the quantity of the item when no two items name the same
    product). *)
Theorem process_order_not_idempotent (b : order_body) (w : World)
    (paymentIntentId userId : string) (items : list item) :
  ob_paymentIntentId b = Val paymentIntentId ->
  intents w !! paymentIntentId = Some "succeeded" ->
  ob_userId b = Val userId ->
  plain_id userId = true ->
  ob_items b = Val items ->
  Forall (fun it => plain_id (productId it) = true) items ->
  Forall (fun it => is_Some (products w !! productId it)) items ->
  ob_total b <> Undefined ->
  ob_shippingAddress b <> Undefined ->
  exists o1 o2 w1 w2 first second,
    Api.process_order_json b w = (json (OrderBody o1 "success"), w1) /\
    Api.process_order_json b w1 = (json (OrderBody o2 "success"), w2) /\
    o1 <> o2 /\
    orders w !! o1 = None /\
    orders w !! o2 = None /\
    orders w2 = <[o2 := second]> (<[o1 := first]> (orders w)) /\
    o_paymentIntentId first = paymentIntentId /\
    o_paymentIntentId second = paymentIntentId /\
    o_items first = Val items /\
    o_items second = Val items /\
    (forall id p, products w !! id = Some p ->
       p_stock <$> products w2 !! id = Some (p_stock p - 2 * ordered id items)) /\
    (NoDup (map productId items) ->
     forall it p, In it items ->
       products w !! productId it = Some p ->
       p_stock <$> products w2 !! productId it
       = Some (p_stock p - 2 * quantity it)).
Proof.
  intros Hpid Hpaid Huser Hplain Hitems Hids Hall Htotal Haddress.
  destruct (apply_updates_exists _ _ (updates_of_existing _ _ Hall)) as [ps1 Hps1].
  pose proof (process_order_json_run_ok b w paymentIntentId userId items ps1
                Hpid Hpaid Huser Hplain Hitems Hids Htotal Haddress Hps1) as Hrun1.
  set (o1 := fresh (dom (orders w))) in *.
  set (w1 := set_carts _ _) in Hrun1.
  assert (Hall1 : Forall (fun u => is_Some (ps1 !! fst u)) (Api.stock_updates items)).
  { eapply Forall_impl; [exact (apply_updates_known _ _ _ Hps1)|].
    intros [id d] [p Hp]; cbn in *.
    rewrite (apply_updates_lookup _ _ _ Hps1 id), Hp. cbn. eauto. }
  destruct (apply_updates_exists _ _ Hall1) as [ps2 Hps2].
  pose proof (process_order_json_run_ok b w1 paymentIntentId userId items ps2
                Hpid Hpaid Huser Hplain Hitems Hids Htotal Haddress Hps2) as Hrun2.
  set (o2 := fresh (dom (orders w1))) in *.
  assert (Hfresh2 : orders w1 !! o2 = None) by apply fresh_order_id.
  cbn in Hfresh2.
  assert (Hne : o1 <> o2).
  { intros Heq. rewrite <- Heq, lookup_insert_eq in Hfresh2. discriminate. }
  assert (Hstock : forall id p, products w !! id = Some p ->
            p_stock <$> ps2 !! id = Some (p_stock p - 2 * ordered id items)).
  { intros id p Hp.
    rewrite (stock_after_batch _ _ _ Hps2 id), (stock_after_batch _ _ _ Hps1 id), Hp.
    cbn. f_equal; lia. }
  eexists o1, o2, w1, _, (Api.order_data b paymentIntentId (now w)),
    (Api.order_data b paymentIntentId (now w)).
  split; [exact Hrun1|].
  split; [exact Hrun2|].
  split; [exact Hne|].
  split; [apply fresh_order_id|].
  split; [now rewrite lookup_insert_ne in Hfresh2|].
  split; [reflexivity|].
  split; [reflexivity|].
  split; [reflexivity|].
  split; [exact Hitems|].
  split; [exact Hitems|].
  split; [exact Hstock|].
  intros Hnd it p Hin Hp. cbn.
  rewrite (Hstock _ _ Hp). now rewrite (NoDup_ordered _ _ Hnd Hin).
Qed.

Lemma process_order_not_idempotent_witness :
  ob_paymentIntentId (json_body Examples.paid_request) = Val "pi_1" /\
  intents Examples.shop !! "pi_1" = Some "succeeded" /\
  plain_id "u2" = true /\
  Forall (fun it => plain_id (productId it) = true)
         (or_items Examples.paid_request) /\
  Forall (fun it => is_Some (products Examples.shop !! productId it))
         (or_items Examples.paid_request) /\
  p_stock <$> products Examples.shop !! "p1" = Some 10 /\
  p_stock <$> products Examples.shop !! "p2" = Some 7 /\
  exists o1 o2 w1 w2,
    Api.process_order_json (json_body Examples.paid_request) Examples.shop
      = (json (OrderBody o1 "success"), w1) /\
    Api.process_order_json (json_body Examples.paid_request) w1
      = (json (OrderBody o2 "success"), w2) /\
    o1 <> o2 /\
    is_Some (orders w2 !! o1) /\
    is_Some (orders w2 !! o2) /\
    size (orders w2) = 2%nat /\
    p_stock <$> products w2 !! "p1" = Some 6 /\
    p_stock <$> products w2 !! "p2" = Some 1.
Proof.
  assert (Hids : Forall (fun it => plain_id (productId it) = true)
                        (or_items Examples.paid_request)).
  { repeat constructor. }
  assert (Hall : Forall (fun it => is_Some (products Examples.shop !! productId it))
                        (or_items Examples.paid_request)).
  { repeat constructor; eexists; reflexivity. }
  split; [reflexivity|]. split; [reflexivity|]. split; [reflexivity|].
  split; [exact Hids|]. split; [exact Hall|].
  split; [reflexivity|]. split; [reflexivity|].
  destruct (process_order_not_idempotent (json_body Examples.paid_request)
              Examples.shop "pi_1" "u2" (or_items Examples.paid_request)
              eq_refl eq_refl eq_refl eq_refl eq_refl Hids Hall)
    as (o1 & o2 & w1 & w2 & first & second & Hrun1 & Hrun2 & Hne & Hnew1 & Hnew2
        & Horders & _ & _ & _ & _ & Hstock & _); [discriminate | discriminate |].
  exists o1, o2, w1, w2.
  split; [exact Hrun1|]. split; [exact Hrun2|]. split; [exact Hne|].
  split; [rewrite Horders, lookup_insert_ne by congruence;
          rewrite lookup_insert_eq; eauto|].
  split; [rewrite Horders, lookup_insert_eq; eauto|].
  split.
  { rewrite Horders.
    rewrite map_size_insert_None
      by (rewrite lookup_insert_ne by congruence; exact Hnew2).
    rewrite map_size_insert_None by exact Hnew1. reflexivity. }
  split; [exact (Hstock "p1" Examples.shirt eq_refl)|].
  exact (Hstock "p2" Examples.cap eq_refl).
Defined.

(** ** The status of the answer of [/process-order] *)

Lemma doc_no_slash (s : string) :
  no_slash s = true ->
  Firestore.doc s = if String.eqb s "" then None else Some s.
Proof.
  intros Hs. destruct (String.eqb s "") eqn:Hempty.
  - apply String.eqb_eq in Hempty. now subst.
  - apply doc_plain. unfold plain_id. now rewrite Hempty, Hs.
Qed.

Lemma batch_of_no_slash (items : list item) :
  Forall (fun it => no_slash (productId it) = true) items ->
  Api.batch_of items =
    if forallb (fun it => negb (String.eqb (productId it) "")) items
    then Some (Api.stock_updates items) else None.
Proof.
  induction 1 as [|it items Hit Hitems IH]; [reflexivity|].
  cbn [Api.batch_of forallb]. rewrite (doc_no_slash _ Hit), IH.
  destruct (String.eqb (productId it) ""); cbn; [reflexivity|].
  now destruct (forallb _ items).
Qed.

Lemma items_usable_or_not (items : list item) (ps : gmap string product) :
  Forall (fun it => productId it <> "" /\ is_Some (ps !! productId it)) items \/
  Exists (fun it => productId it = "" \/ ps !! productId it = None) items.
Proof.
  induction items as [|it items [IH|IH]].
  - left. constructor.
  - destruct (decide (productId it = "")) as [Hempty|Hne].
    + right. constructor. now left.
    + destruct (ps !! productId it) as [p|] eqn:Hp.
      * left. constructor; [rewrite Hp; eauto | exact IH].
      * right. constructor. now right.
  - right. now apply Exists_cons_tl.
Qed.

Lemma items_usable_not_both (items : list item) (ps : gmap string product) :
  Forall (fun it => productId it <> "" /\ is_Some (ps !! productId it)) items ->
  Exists (fun it => productId it = "" \/ ps !! productId it = None) items ->
  False.
Proof.
  intros Hall Hex.
  apply Exists_exists in Hex as (it & Hin & Hbad).
  rewrite Forall_forall in Hall. destruct (Hall it Hin) as [Hne [p Hp]].
  destruct Hbad; congruence.
Qed.

Lemma process_order_json_status_200 (b : order_body) (w : World)
    (paymentIntentId userId : string) (items : list item) :
  ob_paymentIntentId b = Val paymentIntentId ->
  ob_userId b = Val userId ->
  ob_items b = Val items ->
  no_slash userId = true ->
  Forall (fun it => no_slash (productId it) = true) items ->
  intents w !! paymentIntentId = Some "succeeded" ->
  ob_total b <> Undefined ->
  ob_shippingAddress b <> Undefined ->
  userId <> "" ->
  Forall (fun it => productId it <> "" /\ is_Some (products w !! productId it))
         items ->
  r_status (fst (Api.process_order_json b w)) = 200.
Proof.
  intros Hpid Huser Hitems Hslash Hslashes Hpaid Htotal Haddress Hne Hall.
  assert (Hplain : plain_id userId = true).
  { unfold plain_id. rewrite Hslash.
    destruct (String.eqb_spec userId ""); [contradiction | reflexivity]. }
  assert (Hids : Forall (fun it => plain_id (productId it) = true) items).
  { apply Forall_forall. intros it Hin.
    rewrite Forall_forall in Hslashes, Hall.
    unfold plain_id. rewrite (Hslashes it Hin).
    destruct (String.eqb_spec (productId it) ""); [|reflexivity].
    now destruct (Hall it Hin). }
  assert (Hex : Forall (fun it => is_Some (products w !! productId it)) items).
  { eapply Forall_impl; [exact Hall|]. now intros it [_ H]. }
  destruct (apply_updates_exists _ _ (updates_of_existing _ _ Hex)) as [ps' Hps'].
  now rewrite (process_order_json_run_ok b w paymentIntentId userId items ps'
                 Hpid Hpaid Huser Hplain Hitems Hids Htotal Haddress Hps').
Qed.

Lemma process_order_json_status_500 (b : order_body) (w : World)
    (paymentIntentId userId : string) (items : list item) :
  ob_paymentIntentId b = Val paymentIntentId ->
  ob_userId b = Val userId ->
  ob_items b = Val items ->
  no_slash userId = true ->
  Forall (fun it => no_slash (productId it) = true) items ->
  intents w !! paymentIntentId = Some "succeeded" ->
  (ob_total b = Undefined \/ ob_shippingAddress b = Undefined \/ userId = "" \/
   Exists (fun it => productId it = "" \/ products w !! productId it = None)
          items) ->
  r_status (fst (Api.process_order_json b w)) = 500.
Proof.
  intros Hpid Huser Hitems Hslash Hslashes Hpaid Hbad.
  destruct (process_order_json_run_paid b w paymentIntentId userId items
              Hpid Hpaid Huser Hitems) as [message ->].
  destruct (is_undefined (ob_total b) || is_undefined (ob_shippingAddress b))
    eqn:Hundef; [reflexivity|].
  apply orb_false_elim in Hundef as [Htotal Haddress].
  cbn zeta. rewrite (batch_of_no_slash _ Hslashes).
  destruct (forallb _ items) eqn:Hnonempty; [|reflexivity].
  destruct (Firestore.apply_updates _ _) as [ps'|] eqn:Hps'; [|reflexivity].
  rewrite (doc_no_slash _ Hslash).
  destruct (String.eqb_spec userId "") as [Hempty|Hne]; [reflexivity|].
  exfalso.
  destruct Hbad as [H|[H|[H|Hex]]].
  - rewrite H in Htotal. discriminate.
  - rewrite H in Haddress. discriminate.
  - contradiction.
  - apply Exists_exists in Hex as (it & Hin & Hit).
    apply list_elem_of_In in Hin.
    rewrite forallb_forall in Hnonempty.
    specialize (Hnonempty it Hin). apply negb_true_iff in Hnonempty.
    destruct Hit as [Hit|Hit].
    + rewrite Hit in Hnonempty. discriminate.
    + pose proof (apply_updates_known _ _ _ Hps') as Hknown.
      rewrite Forall_forall in Hknown.
      destruct (Hknown (productId it, - quantity it)) as [p Hp].
      * apply list_elem_of_In.
        exact (in_map (fun it => (productId it, - quantity it)) _ _ Hin).
      * cbn in Hp. congruence.
Qed.

(** The status of the answer of [/process-order] tells which path was
    taken. For a body whose [paymentIntentId] and [userId] are strings,
    whose [items] is a list, and whose ids hold no slash: the status is
    200 exactly when the intent has succeeded, [total] and
    [shippingAddress] are present, [userId] is not empty and every item
    names, by an id that is not empty, a product that exists; it is 400
    exactly when the provider knows the intent under another status; it
    is 500 exactly when the provider does not know the intent or when,
    after a succeeded payment, one of the conditions for 200 fails. *)
Theorem process_order_status (b : order_body) (w : World)
    (paymentIntentId userId : string) (items : list item) :
  ob_paymentIntentId b = Val paymentIntentId ->
  ob_userId b = Val userId ->
  ob_items b = Val items ->
  no_slash userId = true ->
  Forall (fun it => no_slash (productId it) = true) items ->
  let res := fst (Api.process_order_json b w) in
  (r_status res = 200 <->
     intents w !! paymentIntentId = Some "succeeded" /\
     ob_total b <> Undefined /\
     ob_shippingAddress b <> Undefined /\
     userId <> "" /\
     Forall (fun it => productId it <> "" /\
                       is_Some (products w !! productId it)) items) /\
  (r_status res = 400 <->
     exists st, intents w !! paymentIntentId = Some st /\ st <> "succeeded") /\
  (r_status res = 500 <->
     intents w !! paymentIntentId = None \/
     (intents w !! paymentIntentId = Some "succeeded" /\
      (ob_total b = Undefined \/ ob_shippingAddress b = Undefined \/
       userId = "" \/
       Exists (fun it => productId it = "" \/
                         products w !! productId it = None) items))).
Proof.
  intros Hpid Huser Hitems Hslash Hslashes. cbn zeta.
  destruct (intents w !! paymentIntentId) as [st|] eqn:Hst.
  - destruct (decide (st = "succeeded")) as [->|Hne].
    + assert (Hcases :
        (ob_total b <> Undefined /\ ob_shippingAddress b <> Undefined /\
         userId <> "" /\
         Forall (fun it => productId it <> "" /\
                           is_Some (products w !! productId it)) items) \/
        (ob_total b = Undefined \/ ob_shippingAddress b = Undefined \/
         userId = "" \/
         Exists (fun it => productId it = "" \/
                           products w !! productId it = None) items)).
      { destruct (ob_total b) as [| |total]; [now right; left| |];
          (destruct (ob_shippingAddress b) as [| |address];
           [now right; right; left| |]);
          (destruct (decide (userId = "")) as [Hempty|Hnonempty];
           [now right; right; right; left|]);
          (destruct (items_usable_or_not items (products w)) as [Hall|Hex];
           [left; repeat split; (discriminate || assumption)
           |now right; right; right; right]). }
      destruct Hcases as [(Htotal & Haddress & Hnonempty & Hall)|Hbad].
      * rewrite (process_order_json_status_200 b w paymentIntentId userId items)
          by assumption.
        repeat split; try discriminate; try tauto.
        -- intros (st & [= <-] & Hne). congruence.
        -- intros [[=]|[_ [H|[H|[H|Hex]]]]]; try contradiction.
           destruct (items_usable_not_both _ _ Hall Hex).
      * rewrite (process_order_json_status_500 b w paymentIntentId userId items)
          by assumption.
        repeat split; try discriminate; try tauto.
        -- intros (_ & Htotal & Haddress & Hnonempty & Hall).
           destruct Hbad as [H|[H|[H|Hex]]]; try contradiction.
           destruct (items_usable_not_both _ _ Hall Hex).
        -- intros (st & [= <-] & Hne). congruence.
    + rewrite (process_order_json_run_unpaid b w paymentIntentId st Hpid Hst Hne).
      cbn. repeat split; try discriminate; eauto.
      * intros [[= ->] _]. congruence.
      * intros [[=]|[[= ->] _]]. congruence.
  - destruct (process_order_json_run_unknown b w paymentIntentId Hpid Hst)
      as [message ->].
    cbn. repeat split; try discriminate; try tauto.
    + intros [[=] _].
    + intros (st & [=] & _).
Qed.

Lemma process_order_status_witness :
  ob_paymentIntentId MoreExamples.anonymous_body = Val "pi_1" /\
  ob_userId MoreExamples.anonymous_body = Val "" /\
  no_slash "" = true /\
  intents Examples.shop !! "pi_1" = Some "succeeded" /\
  r_status (fst (Api.process_order_json MoreExamples.anonymous_body
                   Examples.shop)) = 500 /\
  r_status (fst (Api.process_order_json (json_body Examples.paid_request)
                   Examples.shop)) = 200.
Proof.
  do 4 (split; [reflexivity|]).
  split.
  - apply (process_order_status MoreExamples.anonymous_body Examples.shop
             "pi_1" "" [ {| productId := "p1"; quantity := 2 |} ]
             eq_refl eq_refl eq_refl eq_refl).
    + repeat constructor.
    + right. split; [reflexivity|]. right; right; left. reflexivity.
  - apply (process_order_status (json_body Examples.paid_request) Examples.shop
             "pi_1" "u2" (or_items Examples.paid_request)
             eq_refl eq_refl eq_refl eq_refl).
    + repeat constructor.
    + split; [reflexivity|]. split; [discriminate|]. split; [discriminate|].
      split; [discriminate|].
      repeat constructor; try discriminate; eexists; reflexivity.
Defined.

(** ** The recent orders of [/analytics] *)

(** The list holds the ten first orders of the sorted snapshot, or all of
    them when there are fewer. *)
Lemma recent_length (docs : list (string * order)) :
  length (Api.recent docs) = Nat.min 10 (length docs).
Proof.
  unfold Api.recent.
  rewrite length_map, length_firstn.
  now rewrite <- (Permutation_length (sort_perm Api.newest_first docs)).
Qed.

(** C4 fails on the code. The store holds two orders: [a], and [b] made
    one microsecond later. The comparator subtracts the two timestamps as
    numbers, and as binary64 numbers of seconds the two are the same
    number, so the difference is 0 and the sort leaves the two orders as
    the store gave them: the [recentOrders] that an administrator gets
    lists the older order [a] before the more recent order [b]. *)
Theorem analytics_recent_orders :
  orders MoreExamples.close_orders !! "a"
    = Some (Examples.an_order 1700000000000000 (Val hundred)) /\
  orders MoreExamples.close_orders !! "b"
    = Some (Examples.an_order 1700000000000001 (Val hundred)) /\
  Firestore.Timestamp_valueOf 1700000000000000
    = Firestore.Timestamp_valueOf 1700000000000001 /\
  exists a,
    fst (Api.analytics Examples.admin_request MoreExamples.close_orders)
      = json (AnalyticsBody a) /\
    map ro_id (recentOrders a) = ["a"; "b"] /\
    map (fun r => o_createdAt (ro_data r)) (recentOrders a)
      = [1700000000000000; 1700000000000001].
Proof.
  split; [reflexivity|]. split; [reflexivity|].
  split; [vm_compute; reflexivity|].
  rewrite (analytics_run_served Examples.admin_request MoreExamples.close_orders
             "tok_admin" "u1" eq_refl eq_refl eq_refl).
  eexists. split; [reflexivity|]. split; vm_compute; reflexivity.
Qed.
